(** * Rainfall Prediction API: dual-store identity and reference layer

    A shallow embedding of [api/weather_api.py], [api/models.py] and
    [api/database.py]: the document-store endpoints (sequence allocator,
    referential validation, record mapping) and the relational endpoints
    (connection handling), followed by the properties of the layer.

    Conventions of the embedding
    - Python [int] is [Z]; [float] is an IEEE binary64 value, carried
      through unchanged; [str] is [string]; [dict] is a finite map from
      strings to values.
    - An endpoint is a computation over the store it talks to: it returns a
      value or raises, and in both cases leaves a store behind.
    - The document store is reachable for the whole of an operation (no
      driver-level failure is injected into it) and integers stay within the
      range BSON can hold.  The [$jsonSchema] validators installed by
      [setup_mongodb_validation] are best-effort and accept every document
      the endpoints write; they are left out.
    - The relational endpoints run against a server that can fail at any
      call that reaches it. *)

From Stdlib Require Import ZArith NArith List Bool Lia Sorted.
From Stdlib Require Import Floats.PrimFloat Floats.SpecFloat Floats.FloatOps.
From stdpp Require Import gmap strings list fin_maps.

Local Open Scope string_scope.
Local Open Scope Z_scope.
Local Open Scope list_scope.

(* ===================================================================== *)
(** * Python values                                                       *)
(* ===================================================================== *)

(** [datetime.date] *)
Record date := Date { year : Z; month : Z; day : Z }.

(** [datetime.time] *)
Record time := Time { hour : Z; minute : Z; second : Z; microsecond : Z }.

(** [datetime.datetime], naive: the code never attaches a time zone. *)
Record datetime := Datetime { dt_date : date; dt_time : time }.

(** [datetime.min.time()] *)
Definition min_time : time := Time 0 0 0 0.

(** [datetime.combine(d, t)] *)
Definition combine (d : date) (t : time) : datetime := Datetime d t.

(** The values that occur in request bodies, documents and responses. *)
Inductive value :=
| VNone
| VBool (b : bool)
| VInt (n : Z)
| VFloat (x : float)
| VStr (s : string)
| VDate (d : date)
| VDatetime (t : datetime)
| VObjectId (o : N).

Abbreviation dict := (gmap string value).

(** [None if o is None else inj(o)]: an [Optional[T]] attribute as a value. *)
Definition optional {A} (inj : A -> value) (o : option A) : value :=
  match o with
  | Some a => inj a
  | None => VNone
  end.

(** Does the float [x] denote exactly the integer [n]?  Python and the
    document store both compare an int with a float by numeric value. *)
Definition float_eq_int (x : float) (n : Z) : bool :=
  match Prim2SF x with
  | S754_zero _ => n =? 0
  | S754_finite s m e =>
      let sign := if s then -1 else 1 in
      if 0 <=? e then n =? sign * (Z.pos m * 2 ^ e)
      else (Z.pos m mod 2 ^ (- e) =? 0) && (n =? sign * (Z.pos m / 2 ^ (- e)))
  | _ => false
  end.

(** [n == v] for an int [n]; [bool] is a subclass of [int]. *)
Definition py_eq_int (n : Z) (v : value) : bool :=
  match v with
  | VInt m => n =? m
  | VBool b => n =? Z.b2z b
  | VFloat x => float_eq_int x n
  | _ => false
  end.

(** Truth value of an object, as [if v:] tests it. *)
Definition truthy (v : value) : bool :=
  match v with
  | VNone => false
  | VBool b => b
  | VInt n => negb (n =? 0)
  | VFloat x => negb (PrimFloat.eqb x 0%float)
  | VStr s => negb (String.eqb s "")
  | VDate _ | VDatetime _ | VObjectId _ => true
  end.

(** f-strings are kept as their literal pieces and the values formatted
    into them; what [format] prints for a value is left to Python. *)
Inductive piece :=
| Lit (s : string)
| Fmt (v : value)
| FmtExc (e : exn)
with exn :=
| HTTPException (status_code : Z) (detail : list piece)
| KeyError (key : string)
| TypeError
| UnboundLocalError (name : string)
| ValidationError (model : string)
| InvalidDocument
| DuplicateKeyError
| Psycopg2Error.

(* ===================================================================== *)
(** * Computations: a store threaded through, and exceptions              *)
(* ===================================================================== *)

Inductive outcome (A : Type) :=
| Return (a : A)
| Raise (e : exn).
Arguments Return {A} a.
Arguments Raise {A} e.

Definition M (S A : Type) : Type := S -> outcome A * S.

Definition ret {S A} (a : A) : M S A := fun s => (Return a, s).

Definition raise {S A} (e : exn) : M S A := fun s => (Raise e, s).

Definition bind {S A B} (m : M S A) (k : A -> M S B) : M S B :=
  fun s => match m s with
           | (Return a, s') => k a s'
           | (Raise e, s') => (Raise e, s')
           end.

(** [try: body / except HTTPException: raise / except Exception as e: raise h(e)] *)
Definition try_except_reraise_http {S A} (body : M S A) (h : exn -> exn) : M S A :=
  fun s => match body s with
           | (Raise (HTTPException c d), s') => (Raise (HTTPException c d), s')
           | (Raise e, s') => (Raise (h e), s')
           | r => r
           end.

(** [try: body / except Exception as e: raise h(e)] *)
Definition try_except {S A} (body : M S A) (h : exn -> exn) : M S A :=
  fun s => match body s with
           | (Raise e, s') => (Raise (h e), s')
           | r => r
           end.

Notation "'let*' x ':=' m 'in' k" := (bind m (fun x => k))
  (at level 10, x pattern, m at level 100, k at level 200).
Notation "m '>>' k" := (bind m (fun _ => k))
  (at level 199, right associativity).

(** [for x in l: f(x)], collecting the results; the first exception ends it. *)
Fixpoint for_each {S A B} (f : A -> M S B) (l : list A) : M S (list B) :=
  match l with
  | [] => ret []
  | x :: l' =>
      let* y := f x in
      let* ys := for_each f l' in
      ret (y :: ys)
  end.

(** [d[k]] *)
Definition getitem {S} (d : dict) (k : string) : M S value :=
  match d !! k with
  | Some v => ret v
  | None => raise (KeyError k)
  end.

(** [d.get(k)] *)
Definition dict_get (d : dict) (k : string) : value := default VNone (d !! k).

(** The outcome is an [HTTPException] with this status code. *)
Definition is_http {A} (code : Z) (r : outcome A) : Prop :=
  match r with
  | Raise (HTTPException c _) => c = code
  | _ => False
  end.

(* ===================================================================== *)
(** * The document store behind [db_mongo]                                *)
(* ===================================================================== *)

Inductive collection := Locations | WeatherObservations | RainPredictions.

#[global] Instance collection_eq_dec : EqDecision collection.
Proof. solve_decision. Defined.

(** The three entity collections in natural (insertion) order; the
    [counters] collection as a map from a counter's [_id] (an entity type
    name) to its [sequence_value]; the source of fresh ObjectIds; and the
    server's clock as [datetime.now()] and [datetime.utcnow()] read it. *)
Record world := World {
  counters : gmap string Z;
  locations : list dict;
  weather_observations : list dict;
  rain_predictions : list dict;
  next_oid : N;
  now : datetime;
  utcnow : datetime;
}.

Definition coll (c : collection) (w : world) : list dict :=
  match c with
  | Locations => locations w
  | WeatherObservations => weather_observations w
  | RainPredictions => rain_predictions w
  end.

Definition set_coll (c : collection) (l : list dict) (w : world) : world :=
  match c with
  | Locations =>
      World (counters w) l (weather_observations w) (rain_predictions w)
            (next_oid w) (now w) (utcnow w)
  | WeatherObservations =>
      World (counters w) (locations w) l (rain_predictions w)
            (next_oid w) (now w) (utcnow w)
  | RainPredictions =>
      World (counters w) (locations w) (weather_observations w) l
            (next_oid w) (now w) (utcnow w)
  end.

Definition set_counters (m : gmap string Z) (w : world) : world :=
  World m (locations w) (weather_observations w) (rain_predictions w)
        (next_oid w) (now w) (utcnow w).

Definition set_next_oid (n : N) (w : world) : world :=
  World (counters w) (locations w) (weather_observations w) (rain_predictions w)
        n (now w) (utcnow w).

(** BSON keeps a datetime as milliseconds since the epoch: the driver
    drops the microseconds below a millisecond on the way in. *)
Definition millis (t : datetime) : datetime :=
  let tm := dt_time t in
  Datetime (dt_date t)
           (Time (hour tm) (minute tm) (second tm) (microsecond tm / 1000 * 1000)).

(** A [datetime.date] has no BSON encoding; the driver refuses it. *)
Definition encodable (v : value) : bool :=
  match v with
  | VDate _ => false
  | _ => true
  end.

Definition bson_value (v : value) : value :=
  match v with
  | VDatetime t => VDatetime (millis t)
  | _ => v
  end.

Definition bson_encode {S} (d : dict) : M S dict :=
  if forallb (fun kv => encodable (snd kv)) (map_to_list d)
  then ret (bson_value <$> d)
  else raise InvalidDocument.

(** Equality as a query filter [{k: q}] tests it against a stored value. *)
Definition time_eqb (a b : time) : bool :=
  (hour a =? hour b) && (minute a =? minute b) && (second a =? second b)
  && (microsecond a =? microsecond b).

Definition date_eqb (a b : date) : bool :=
  (year a =? year b) && (month a =? month b) && (day a =? day b).

Definition datetime_eqb (a b : datetime) : bool :=
  date_eqb (dt_date a) (dt_date b) && time_eqb (dt_time a) (dt_time b).

Definition bson_eq (q v : value) : bool :=
  match q, v with
  | VNone, VNone => true
  | VBool a, VBool b => Bool.eqb a b
  | VInt a, VInt b => a =? b
  | VInt a, VFloat x => float_eq_int x a
  | VFloat x, VInt a => float_eq_int x a
  | VFloat x, VFloat y => PrimFloat.eqb x y
  | VStr a, VStr b => String.eqb a b
  | VDatetime a, VDatetime b => datetime_eqb a b
  | VObjectId a, VObjectId b => (a =? b)%N
  | _, _ => false
  end.

(** Does document [d] satisfy the filter [{k: q}]?  A filter on [None]
    also selects the documents that lack the field. *)
Definition matches (k : string) (q : value) (d : dict) : bool :=
  match d !! k with
  | Some v => bson_eq q v
  | None => match q with VNone => true | _ => false end
  end.

(** [collection.find_one({k: q})]: the first match in natural order. *)
Definition find_one (c : collection) (k : string) (q : value) : M world (option dict) :=
  if encodable q
  then fun w => (Return (List.find (matches k (bson_value q)) (coll c w)), w)
  else raise InvalidDocument.

(** [collection.find()] *)
Definition find (c : collection) : M world (list dict) :=
  fun w => (Return (coll c w), w).

(** [collection.insert_one(data)].  The driver adds a fresh ObjectId under
    [_id] to the caller's dict when it has none, so the call hands back the
    dict as the caller sees it afterwards, next to [result.inserted_id].
    [_id] is unique within a collection. *)
Definition insert_one (c : collection) (data : dict) : M world (value * dict) :=
  fun w =>
    let '(data, w1) :=
      match data !! "_id" with
      | Some _ => (data, w)
      | None => (<["_id" := VObjectId (next_oid w)]> data,
                 set_next_oid (next_oid w + 1) w)
      end in
    match bson_encode data w1 with
    | (Return doc, w2) =>
        if existsb (matches "_id" (dict_get doc "_id")) (coll c w2)
        then (Raise DuplicateKeyError, w2)
        else (Return (dict_get data "_id", data), set_coll c (coll c w2 ++ [doc]) w2)
    | (Raise e, w2) => (Raise e, w2)
    end.

(** Replace the first document of [l] that satisfies [p] by its image. *)
Fixpoint update_first (p : dict -> bool) (f : dict -> dict) (l : list dict) : list dict :=
  match l with
  | [] => []
  | d :: l' => if p d then f d :: l' else d :: update_first p f l'
  end.

(** Remove the first document of [l] that satisfies [p]. *)
Fixpoint remove_first (p : dict -> bool) (l : list dict) : list dict :=
  match l with
  | [] => []
  | d :: l' => if p d then l' else d :: remove_first p l'
  end.

(** [collection.update_one({k: q}, {"$set": data}).matched_count] *)
Definition update_one (c : collection) (k : string) (q : value) (data : dict) : M world Z :=
  if encodable q then
    let* fields := bson_encode data in
    fun w =>
      let p := matches k (bson_value q) in
      if existsb p (coll c w)
      then (Return 1, set_coll c (update_first p (fun d => fields ∪ d) (coll c w)) w)
      else (Return 0, w)
  else raise InvalidDocument.

(** [collection.delete_one({k: q}).deleted_count] *)
Definition delete_one (c : collection) (k : string) (q : value) : M world Z :=
  if encodable q then
    fun w =>
      let p := matches k (bson_value q) in
      if existsb p (coll c w)
      then (Return 1, set_coll c (remove_first p (coll c w)) w)
      else (Return 0, w)
  else raise InvalidDocument.

(** [db_mongo.counters.find_one_and_update({"_id": name},
    {"$inc": {"sequence_value": 1}}, upsert=True, return_document=True)
    ["sequence_value"]]: one atomic step of the store.  An absent counter is
    created by the upsert, [$inc] on the missing field starting from 0, and
    the document as it is after the update is returned. *)
Definition find_one_and_update_inc (name : string) : M world Z :=
  fun w =>
    let v := default 0 (counters w !! name) + 1 in
    (Return v, set_counters (<[name := v]> (counters w)) w).

(** [datetime.now()] *)
Definition datetime_now : M world datetime := fun w => (Return (now w), w).

(** [not doc] for the result of [find_one]: it holds of [None] and of the
    empty dict. *)
Definition not_doc (doc : option dict) : bool :=
  match doc with
  | None => true
  | Some d => (size d =? 0)%nat
  end.

(** Iterating over or indexing the result of [find_one]: [None] raises. *)
Definition the_doc (doc : option dict) : M world dict :=
  match doc with
  | Some d => ret d
  | None => raise TypeError
  end.

(* ===================================================================== *)
(** * [api/models.py]                                                     *)
(* ===================================================================== *)

(** ** Request bodies

    A request body reaches an endpoint already parsed and validated by the
    framework, as an instance of its class: a record. *)

Module LocationBase.
Record t := Make { name : string; state : option string }.
(** [loc.dict()] *)
Definition dict (loc : t) : dict :=
  <["name" := VStr (name loc)]> (<["state" := optional VStr (state loc)]> ∅).
End LocationBase.

(** [MongoLocationBase] declares the fields of [LocationBase] again. *)
Module MongoLocationBase.
Record t := Make { name : string; state : option string }.
Definition dict (loc : t) : dict :=
  <["name" := VStr (name loc)]> (<["state" := optional VStr (state loc)]> ∅).
End MongoLocationBase.

Module ObservationBase.
Record t := Make {
  location_id : Z;
  date : date;
  min_temp : option float;
  max_temp : option float;
  rainfall : option float;
  humidity_9am : option float;
  humidity_3pm : option float;
  pressure_9am : option float;
  pressure_3pm : option float;
  wind_speed_9am : option float;
  wind_speed_3pm : option float;
  wind_dir_9am : option string;
  wind_dir_3pm : option string;
  cloud_9am : option float;
  cloud_3pm : option float;
  temp_9am : option float;
  temp_3pm : option float;
  rain_today : option bool;
  rain_tomorrow : option bool;
}.
(** [obs.dict()] *)
Definition dict (obs : t) : dict :=
  list_to_map [
    ("location_id", VInt (location_id obs));
    ("date", VDate (date obs));
    ("min_temp", optional VFloat (min_temp obs));
    ("max_temp", optional VFloat (max_temp obs));
    ("rainfall", optional VFloat (rainfall obs));
    ("humidity_9am", optional VFloat (humidity_9am obs));
    ("humidity_3pm", optional VFloat (humidity_3pm obs));
    ("pressure_9am", optional VFloat (pressure_9am obs));
    ("pressure_3pm", optional VFloat (pressure_3pm obs));
    ("wind_speed_9am", optional VFloat (wind_speed_9am obs));
    ("wind_speed_3pm", optional VFloat (wind_speed_3pm obs));
    ("wind_dir_9am", optional VStr (wind_dir_9am obs));
    ("wind_dir_3pm", optional VStr (wind_dir_3pm obs));
    ("cloud_9am", optional VFloat (cloud_9am obs));
    ("cloud_3pm", optional VFloat (cloud_3pm obs));
    ("temp_9am", optional VFloat (temp_9am obs));
    ("temp_3pm", optional VFloat (temp_3pm obs));
    ("rain_today", optional VBool (rain_today obs));
    ("rain_tomorrow", optional VBool (rain_tomorrow obs))
  ].
End ObservationBase.

Module PredictionBase.
Record t := Make { observation_id : Z; will_it_rain : bool }.
(** [pred.dict()] *)
Definition dict (pred : t) : dict :=
  <["observation_id" := VInt (observation_id pred)]>
    (<["will_it_rain" := VBool (will_it_rain pred)]> ∅).
End PredictionBase.

(** [predicted_at] is what the client sent, or [datetime.utcnow()] taken by
    the default factory while the body was parsed. *)
Module MongoPredictionBase.
Record t := Make { observation_id : Z; will_it_rain : bool; predicted_at : datetime }.
Definition dict (pred : t) : dict :=
  <["observation_id" := VInt (observation_id pred)]>
    (<["will_it_rain" := VBool (will_it_rain pred)]>
       (<["predicted_at" := VDatetime (predicted_at pred)]> ∅)).
End MongoPredictionBase.

(** ** Rows of the relational store *)

Module Location.
Record t := Make { location_id : Z; name : string; state : option string }.
End Location.

(** [class Observation(ObservationBase)] *)
Module Observation.
Record t := Make { observation_id : Z; base : ObservationBase.t }.
End Observation.

Module Prediction.
Record t := Make {
  prediction_id : Z;
  observation_id : Z;
  will_it_rain : bool;
  predicted_at : datetime;
}.
End Prediction.

(** ** Classes instantiated from stored documents

    [MongoLocation], [MongoObservation] and [MongoPrediction] are built from
    keyword arguments read out of a document, so their fields are checked
    when the instance is made.  A class is its list of fields; an instance
    is its [.dict()].  Keyword arguments that name no field are ignored. *)

Inductive annotation :=
| int_
| float_
| str_
| bool_
| datetime_
| date_or_datetime.

Inductive field_default :=
| Required
| DefaultNone
| DefaultFactoryUtcnow.

Record field := Field {
  field_name : string;
  field_type : annotation;
  field_optional : bool;
  field_default_ : field_default;
}.

(** [name: T] *)
Definition required (n : string) (a : annotation) : field := Field n a false Required.

(** [name: Optional[T] = None] *)
Definition optional_field (n : string) (a : annotation) : field := Field n a true DefaultNone.

Definition MongoLocationBase_fields : list field := [
  required "name" str_;
  optional_field "state" str_
].

Definition MongoLocation_fields : list field :=
  MongoLocationBase_fields ++ [ required "location_id" int_ ].

Definition MongoObservationBase_fields : list field := [
  required "location_id" int_;
  required "date" date_or_datetime;
  optional_field "min_temp" float_;
  optional_field "max_temp" float_;
  optional_field "rainfall" float_;
  optional_field "humidity_9am" float_;
  optional_field "humidity_3pm" float_;
  optional_field "pressure_9am" float_;
  optional_field "pressure_3pm" float_;
  optional_field "wind_speed_9am" float_;
  optional_field "wind_speed_3pm" float_;
  optional_field "wind_dir_9am" str_;
  optional_field "wind_dir_3pm" str_;
  optional_field "cloud_9am" float_;
  optional_field "cloud_3pm" float_;
  optional_field "temp_9am" float_;
  optional_field "temp_3pm" float_;
  optional_field "rain_today" bool_;
  optional_field "rain_tomorrow" bool_
].

Definition MongoObservation_fields : list field :=
  MongoObservationBase_fields ++ [ required "observation_id" int_ ].

Definition MongoPredictionBase_fields : list field := [
  required "observation_id" int_;
  required "will_it_rain" bool_;
  Field "predicted_at" datetime_ false DefaultFactoryUtcnow
].

Definition MongoPrediction_fields : list field :=
  MongoPredictionBase_fields ++ [
    required "prediction_id" int_;
    required "location_id" int_
  ].

(** A value of the annotated type is kept as it is; in a union the member
    the value is an instance of is taken.  The conversions pydantic tries
    on a value of another type (an int given for a float, a string for an
    int) are not modelled: such a value is refused.  No endpoint writes
    one into a document. *)
Definition accepts (a : annotation) (v : value) : bool :=
  match a, v with
  | int_, VInt _ => true
  | float_, VFloat _ => true
  | str_, VStr _ => true
  | bool_, VBool _ => true
  | datetime_, VDatetime _ => true
  | date_or_datetime, VDate _ => true
  | date_or_datetime, VDatetime _ => true
  | _, _ => false
  end.

Definition validate_field (utc : datetime) (f : field) (kwargs : dict) : option value :=
  match kwargs !! field_name f with
  | Some VNone => if field_optional f then Some VNone else None
  | Some v => if accepts (field_type f) v then Some v else None
  | None =>
      match field_default_ f with
      | Required => None
      | DefaultNone => Some VNone
      | DefaultFactoryUtcnow => Some (VDatetime utc)
      end
  end.

Fixpoint validate_fields (utc : datetime) (fs : list field) (kwargs : dict) : option dict :=
  match fs with
  | [] => Some ∅
  | f :: fs' =>
      match validate_field utc f kwargs, validate_fields utc fs' kwargs with
      | Some v, Some d => Some (<[field_name f := v]> d)
      | _, _ => None
      end
  end.

(** The instance a class makes of the keyword arguments [kwargs], as its
    [.dict()] returns it; a failed check is a [ValidationError]. *)
Definition BaseModel (model : string) (fs : list field) (kwargs : dict) : M world dict :=
  fun w =>
    match validate_fields (utcnow w) fs kwargs with
    | Some d => (Return d, w)
    | None => (Raise (ValidationError model), w)
    end.

Definition MongoLocation := BaseModel "MongoLocation" MongoLocation_fields.
Definition MongoObservation := BaseModel "MongoObservation" MongoObservation_fields.
Definition MongoPrediction := BaseModel "MongoPrediction" MongoPrediction_fields.

(** [{k: doc.get(k) for k in doc if k != '_id'}] *)
Definition without_id (doc : dict) : dict := delete "_id" doc.

(* ===================================================================== *)
(** * [api/weather_api.py]: the document-store endpoints                  *)
(* ===================================================================== *)

(** [{"message": ..., "data": ...}] *)
Inductive payload :=
| PNone
| PDict (d : dict)
| PList (l : list dict).

Record response := Response { message : list piece; data : payload }.

(** [if c: body] *)
Definition when {S A} (c : bool) (body : M S A) : M S unit :=
  if c then body >> ret tt else ret tt.

(** [verify_location_exists] *)
Definition verify_location_exists (location_id : value) : M world bool :=
  let* location := find_one Locations "location_id" location_id in
  if not_doc location
  then raise (HTTPException 404
                [Lit "Location with ID "; Fmt location_id;
                 Lit " not found. Please create the location first."])
  else ret true.

(** [get_next_sequence_value] *)
Definition get_next_sequence_value (collection_name : string) : M world Z :=
  let* sequence_value := find_one_and_update_inc collection_name in
  ret sequence_value.

(** [MongoLocation(location_id=d["location_id"], name=d["name"], state=d.get("state"))] *)
Definition MongoLocation_of (d : dict) : M world dict :=
  let* location_id := getitem d "location_id" in
  let* name := getitem d "name" in
  MongoLocation (<["location_id" := location_id]>
                   (<["name" := name]> (<["state" := dict_get d "state"]> ∅))).

(** [create_mongo_location] *)
Definition create_mongo_location (loc : MongoLocationBase.t) : M world response :=
  try_except
    (let* location_id := get_next_sequence_value "locations" in
     let data := MongoLocationBase.dict loc in
     let data := <["location_id" := VInt location_id]> data in
     let* (result, data) := insert_one Locations data in
     let* created_loc := MongoLocation data in
     ret (Response [Lit "Location '"; Fmt (VStr (MongoLocationBase.name loc));
                    Lit "' created successfully with ID "; Fmt (VInt location_id)]
                   (PDict created_loc)))
    (fun e => HTTPException 500 [Lit "Failed to create location: "; FmtExc e]).

(** [read_mongo_locations] *)
Definition read_mongo_locations : M world response :=
  try_except
    (let* docs := find Locations in
     let* locations := for_each MongoLocation_of docs in
     ret (Response [Lit "Found "; Fmt (VInt (Z.of_nat (length locations)));
                    Lit " locations"]
                   (PList locations)))
    (fun e => HTTPException 500 [Lit "Failed to retrieve locations: "; FmtExc e]).

(** [read_mongo_location] *)
Definition read_mongo_location (location_id : Z) : M world response :=
  try_except_reraise_http
    (let* doc := find_one Locations "location_id" (VInt location_id) in
     if not_doc doc
     then raise (HTTPException 404
                   [Lit "Location with ID "; Fmt (VInt location_id); Lit " not found"])
     else
       let* doc := the_doc doc in
       let* location := MongoLocation_of doc in
       ret (Response [Lit "Location found: "; Fmt (dict_get location "name")]
                     (PDict location)))
    (fun e => HTTPException 500 [Lit "Failed to retrieve location: "; FmtExc e]).

(** [update_mongo_location] *)
Definition update_mongo_location (location_id : Z) (loc : LocationBase.t) : M world response :=
  try_except_reraise_http
    (let data := LocationBase.dict loc in
     let* res := update_one Locations "location_id" (VInt location_id) data in
     if res =? 0
     then raise (HTTPException 404
                   [Lit "Location with ID "; Fmt (VInt location_id); Lit " not found"])
     else
       let* doc := find_one Locations "location_id" (VInt location_id) in
       let* doc := the_doc doc in
       let* updated_loc := MongoLocation_of doc in
       ret (Response [Lit "Location "; Fmt (VInt location_id);
                      Lit " updated successfully"]
                     (PDict updated_loc)))
    (fun e => HTTPException 500 [Lit "Failed to update location: "; FmtExc e]).

(** [delete_mongo_location] *)
Definition delete_mongo_location (location_id : Z) : M world response :=
  try_except_reraise_http
    (let* doc := find_one Locations "location_id" (VInt location_id) in
     if not_doc doc
     then raise (HTTPException 404
                   [Lit "Location with ID "; Fmt (VInt location_id); Lit " not found"])
     else
       let* doc := the_doc doc in
       let* location_name := getitem doc "name" in
       let* res := delete_one Locations "location_id" (VInt location_id) in
       if res =? 0
       then raise (HTTPException 404
                     [Lit "Location with ID "; Fmt (VInt location_id); Lit " not found"])
       else
         ret (Response [Lit "Location '"; Fmt location_name; Lit "' (ID: ";
                        Fmt (VInt location_id); Lit ") deleted successfully"]
                       PNone))
    (fun e => HTTPException 500 [Lit "Failed to delete location: "; FmtExc e]).

(** [isinstance(v, date)] holds of a date and of a datetime, its subclass;
    [datetime.combine(v, datetime.min.time())] then takes the date part of
    [v] to midnight. *)
Definition at_midnight (v : value) : option datetime :=
  match v with
  | VDate d => Some (combine d min_time)
  | VDatetime t => Some (combine (dt_date t) min_time)
  | _ => None
  end.

(** [if isinstance(data["date"], date): data["date"] = datetime.combine(...)] *)
Definition convert_date (data : dict) : M world dict :=
  let* v := getitem data "date" in
  match at_midnight v with
  | Some t => ret (<["date" := VDatetime t]> data)
  | None => ret data
  end.

(** [create_mongo_observation] *)
Definition create_mongo_observation (obs : ObservationBase.t) : M world response :=
  try_except_reraise_http
    (verify_location_exists (VInt (ObservationBase.location_id obs)) >>
     let* observation_id := get_next_sequence_value "observations" in
     let data := ObservationBase.dict obs in
     let* data := convert_date data in
     let data := <["observation_id" := VInt observation_id]> data in
     let* (result, data) := insert_one WeatherObservations data in
     let* saved_data := find_one WeatherObservations "_id" result in
     let* saved_data := the_doc saved_data in
     let* created_obs := MongoObservation (without_id saved_data) in
     ret (Response [Lit "Weather observation created successfully with ID ";
                    Fmt (VInt observation_id)]
                   (PDict created_obs)))
    (fun e => HTTPException 500 [Lit "Failed to create observation: "; FmtExc e]).

(** [read_mongo_observations] *)
Definition read_mongo_observations : M world response :=
  try_except
    (let* docs := find WeatherObservations in
     let* observations := for_each (fun d => MongoObservation (without_id d)) docs in
     ret (Response [Lit "Found "; Fmt (VInt (Z.of_nat (length observations)));
                    Lit " weather observations"]
                   (PList observations)))
    (fun e => HTTPException 500 [Lit "Failed to retrieve observations: "; FmtExc e]).

(** [read_mongo_observation] *)
Definition read_mongo_observation (observation_id : Z) : M world response :=
  try_except_reraise_http
    (let* doc := find_one WeatherObservations "observation_id" (VInt observation_id) in
     if not_doc doc
     then raise (HTTPException 404
                   [Lit "Observation with ID "; Fmt (VInt observation_id);
                    Lit " not found"])
     else
       let* doc := the_doc doc in
       let* observation := MongoObservation (without_id doc) in
       let* location_id := getitem doc "location_id" in
       let* date := getitem doc "date" in
       ret (Response [Lit "Found observation for location "; Fmt location_id;
                      Lit " on "; Fmt date]
                     (PDict observation)))
    (fun e => HTTPException 500 [Lit "Failed to retrieve observation: "; FmtExc e]).

(** [update_mongo_observation] *)
Definition update_mongo_observation (observation_id : Z) (obs : ObservationBase.t)
  : M world response :=
  try_except_reraise_http
    (when (negb (ObservationBase.location_id obs =? 0))
       (verify_location_exists (VInt (ObservationBase.location_id obs))) >>
     let data := ObservationBase.dict obs in
     let* data := convert_date data in
     let* res := update_one WeatherObservations "observation_id" (VInt observation_id) data in
     if res =? 0
     then raise (HTTPException 404
                   [Lit "Observation with ID "; Fmt (VInt observation_id);
                    Lit " not found"])
     else
       let* doc := find_one WeatherObservations "observation_id" (VInt observation_id) in
       let* doc := the_doc doc in
       let* updated_obs := MongoObservation (without_id doc) in
       ret (Response [Lit "Weather observation "; Fmt (VInt observation_id);
                      Lit " updated successfully"]
                     (PDict updated_obs)))
    (fun e => HTTPException 500 [Lit "Failed to update observation: "; FmtExc e]).

(** [delete_mongo_observation] *)
Definition delete_mongo_observation (observation_id : Z) : M world response :=
  try_except_reraise_http
    (let* doc := find_one WeatherObservations "observation_id" (VInt observation_id) in
     if not_doc doc
     then raise (HTTPException 404
                   [Lit "Observation with ID "; Fmt (VInt observation_id);
                    Lit " not found"])
     else
       let* doc := the_doc doc in
       let* location_id := getitem doc "location_id" in
       let* observation_date := getitem doc "date" in
       let* res := delete_one WeatherObservations "observation_id" (VInt observation_id) in
       if res =? 0
       then raise (HTTPException 404
                     [Lit "Observation with ID "; Fmt (VInt observation_id);
                      Lit " not found"])
       else
         ret (Response [Lit "Weather observation "; Fmt (VInt observation_id);
                        Lit " (Location: "; Fmt location_id; Lit ", Date: ";
                        Fmt observation_date; Lit ") deleted successfully"]
                       PNone))
    (fun e => HTTPException 500 [Lit "Failed to delete observation: "; FmtExc e]).

(** ["rain expected" if v else "no rain expected"] *)
Definition rain_status (v : value) : value :=
  VStr (if truthy v then "rain expected" else "no rain expected").

(** [create_mongo_prediction] *)
Definition create_mongo_prediction (pred : MongoPredictionBase.t) : M world response :=
  try_except_reraise_http
    (let* prediction_id := get_next_sequence_value "predictions" in
     let* observation :=
       find_one WeatherObservations "observation_id"
                (VInt (MongoPredictionBase.observation_id pred)) in
     if not_doc observation
     then raise (HTTPException 404
                   [Lit "Observation with ID ";
                    Fmt (VInt (MongoPredictionBase.observation_id pred));
                    Lit " not found"])
     else
       let* observation := the_doc observation in
       let* location_id := getitem observation "location_id" in
       verify_location_exists location_id >>
       let data := MongoPredictionBase.dict pred in
       let data := <["location_id" := location_id]> data in
       let data := <["prediction_id" := VInt prediction_id]> data in
       let* t := datetime_now in
       let data := <["predicted_at" := VDatetime t]> data in
       let* (result, data) := insert_one RainPredictions data in
       let* saved_data := find_one RainPredictions "_id" result in
       let* saved_data := the_doc saved_data in
       let* created_pred := MongoPrediction (without_id saved_data) in
       ret (Response [Lit "Created prediction (ID: "; Fmt (VInt prediction_id);
                      Lit ") for location "; Fmt location_id; Lit ": ";
                      Fmt (rain_status (VBool (MongoPredictionBase.will_it_rain pred)))]
                     (PDict created_pred)))
    (fun e => HTTPException 500 [Lit "Failed to create prediction: "; FmtExc e]).

(** [read_mongo_predictions] *)
Definition read_mongo_predictions : M world response :=
  try_except
    (let* docs := find RainPredictions in
     let* predictions := for_each (fun d => MongoPrediction (without_id d)) docs in
     ret (Response [Lit "Found "; Fmt (VInt (Z.of_nat (length predictions)));
                    Lit " weather predictions"]
                   (PList predictions)))
    (fun e => HTTPException 500 [Lit "Failed to retrieve predictions: "; FmtExc e]).

(** [read_mongo_prediction] *)
Definition read_mongo_prediction (prediction_id : Z) : M world response :=
  try_except_reraise_http
    (let* doc := find_one RainPredictions "prediction_id" (VInt prediction_id) in
     if not_doc doc
     then raise (HTTPException 404
                   [Lit "Prediction with ID "; Fmt (VInt prediction_id);
                    Lit " not found"])
     else
       let* doc := the_doc doc in
       let* prediction := MongoPrediction (without_id doc) in
       let* will_it_rain := getitem doc "will_it_rain" in
       let* location_id := getitem doc "location_id" in
       let* predicted_at := getitem doc "predicted_at" in
       ret (Response [Lit "Found prediction for location "; Fmt location_id;
                      Lit ": "; Fmt (rain_status will_it_rain); Lit " (made on ";
                      Fmt predicted_at; Lit ")"]
                     (PDict prediction)))
    (fun e => HTTPException 500 [Lit "Failed to retrieve prediction: "; FmtExc e]).

(** [update_mongo_prediction].  In the branch for a changed
    [observation_id] the statement [data["location_id"] = ...] runs before
    [data = pred.dict()] has bound [data], a local of the function. *)
Definition update_mongo_prediction (prediction_id : Z) (pred : PredictionBase.t)
  : M world response :=
  try_except_reraise_http
    (let* existing := find_one RainPredictions "prediction_id" (VInt prediction_id) in
     if not_doc existing
     then raise (HTTPException 404
                   [Lit "Prediction with ID "; Fmt (VInt prediction_id);
                    Lit " not found"])
     else
       let* existing := the_doc existing in
       let* stored := getitem existing "observation_id" in
       when (negb (py_eq_int (PredictionBase.observation_id pred) stored))
         (let* observation :=
            find_one WeatherObservations "observation_id"
                     (VInt (PredictionBase.observation_id pred)) in
          if not_doc observation
          then raise (HTTPException 404
                        [Lit "Observation with ID ";
                         Fmt (VInt (PredictionBase.observation_id pred));
                         Lit " not found"])
          else
            let* observation := the_doc observation in
            let* location_id := getitem observation "location_id" in
            verify_location_exists location_id >>
            let* location_id := getitem observation "location_id" in
            raise (A := unit) (UnboundLocalError "data")) >>
       let data := PredictionBase.dict pred in
       let* t := datetime_now in
       let data := <["predicted_at" := VDatetime t]> data in
       let* res := update_one RainPredictions "prediction_id" (VInt prediction_id) data in
       if res =? 0
       then raise (HTTPException 404
                     [Lit "Prediction with ID "; Fmt (VInt prediction_id);
                      Lit " not found"])
       else
         let* doc := find_one RainPredictions "prediction_id" (VInt prediction_id) in
         let* doc := the_doc doc in
         let* updated_pred := MongoPrediction (without_id doc) in
         ret (Response [Lit "Updated prediction "; Fmt (VInt prediction_id); Lit ": ";
                        Fmt (rain_status (VBool (PredictionBase.will_it_rain pred)))]
                       (PDict updated_pred)))
    (fun e => HTTPException 500 [Lit "Failed to update prediction: "; FmtExc e]).

(** [delete_mongo_prediction] *)
Definition delete_mongo_prediction (prediction_id : Z) : M world response :=
  try_except_reraise_http
    (let* doc := find_one RainPredictions "prediction_id" (VInt prediction_id) in
     if not_doc doc
     then raise (HTTPException 404
                   [Lit "Prediction with ID "; Fmt (VInt prediction_id);
                    Lit " not found"])
     else
       let* doc := the_doc doc in
       let* location_id := getitem doc "location_id" in
       let* predicted_at := getitem doc "predicted_at" in
       let* will_it_rain := getitem doc "will_it_rain" in
       let* res := delete_one RainPredictions "prediction_id" (VInt prediction_id) in
       if res =? 0
       then raise (HTTPException 404
                     [Lit "Prediction with ID "; Fmt (VInt prediction_id);
                      Lit " not found"])
       else
         ret (Response [Lit "Deleted prediction "; Fmt (VInt prediction_id);
                        Lit " (Location: "; Fmt location_id; Lit ", ";
                        Fmt (rain_status will_it_rain); Lit ", made on ";
                        Fmt predicted_at; Lit ")"]
                       PNone))
    (fun e => HTTPException 500 [Lit "Failed to delete prediction: "; FmtExc e]).

(* ===================================================================== *)
(** * The relational store behind [get_db_connection]                     *)
(* ===================================================================== *)

Record tables := Tables {
  locations_table : list Location.t;
  weather_observations_table : list Observation.t;
  rain_predictions_table : list Prediction.t;
}.

(** Modelled from the spec: the DDL of the three tables is not part of the
    sources.  Identities are "store-native serial" keys, one sequence per
    table, and a sequence is not rolled back with a transaction. *)
Record serials := Serials {
  locations_seq : Z;
  weather_observations_seq : Z;
  rain_predictions_seq : Z;
}.

(** A connection made by [psycopg2.connect] is open, with the tables as its
    running transaction sees them once a statement has started one, or it
    has been closed. *)
Inductive connection :=
| Open (transaction : option tables)
| Closed.

(** The server: the committed tables, the sequences, every connection
    made so far (a connection object is its index here), for each coming
    call that reaches the server whether it fails, and the server's clock. *)
Record postgres := Postgres {
  committed : tables;
  sequences : serials;
  connections : list connection;
  failures : list bool;
  current_timestamp : datetime;
}.

Definition is_open (c : connection) : bool :=
  match c with
  | Open _ => true
  | Closed => false
  end.

(** The connections that are held open. *)
Definition open_connections (s : postgres) : nat :=
  length (List.filter is_open (connections s)).

(** A call that reaches the server raises [psycopg2.Error] when the server
    fails it: the server is down, the connection drops, or the statement
    breaks a constraint of the tables. *)
Definition reach_server : M postgres unit :=
  fun s =>
    match failures s with
    | [] => (Return tt, s)
    | fails :: rest =>
        let s' := Postgres (committed s) (sequences s) (connections s) rest
                           (current_timestamp s) in
        if fails then (Raise Psycopg2Error, s') else (Return tt, s')
    end.

Definition set_connections (l : list connection) (s : postgres) : postgres :=
  Postgres (committed s) (sequences s) l (failures s) (current_timestamp s).

(** [get_db_connection] *)
Definition get_db_connection : M postgres nat :=
  reach_server >>
  fun s => (Return (length (connections s)),
            set_connections (connections s ++ [Open None]) s).

(** [conn.cursor()], also with [cursor_factory=RealDictCursor]: a cursor
    is bound to its connection. *)
Definition cursor (conn : nat) : M postgres nat := ret conn.

(** What a statement leaves in the cursor. *)
Record result (A : Type) := Result { rows : list A; rowcount : Z }.
Arguments Result {A} rows rowcount.
Arguments rows {A} r.
Arguments rowcount {A} r.

Definition statement (A : Type) : Type :=
  datetime -> serials -> tables -> result A * serials * tables.

(** [cur.execute(statement)]: the statement runs in the transaction of the
    cursor's connection, starting one if none is running. *)
Definition execute {A} (cur : nat) (stmt : statement A) : M postgres (result A) :=
  reach_server >>
  fun s =>
    match connections s !! cur with
    | Some (Open transaction) =>
        let '(res, seqs, tbls) :=
          stmt (current_timestamp s) (sequences s) (default (committed s) transaction) in
        (Return res,
         Postgres (committed s) seqs (<[cur := Open (Some tbls)]> (connections s))
                  (failures s) (current_timestamp s))
    | _ => (Raise Psycopg2Error, s)
    end.

(** [cur.fetchone()] right after [execute] *)
Definition fetchone {A} (res : result A) : option A := head (rows res).

(** [cur.fetchall()] right after [execute] *)
Definition fetchall {A} (res : result A) : list A := rows res.

(** [conn.commit()] *)
Definition commit (conn : nat) : M postgres unit :=
  reach_server >>
  fun s =>
    match connections s !! conn with
    | Some (Open transaction) =>
        (Return tt,
         Postgres (default (committed s) transaction) (sequences s)
                  (<[conn := Open None]> (connections s))
                  (failures s) (current_timestamp s))
    | _ => (Raise Psycopg2Error, s)
    end.

(** [cur.close()] *)
Definition cursor_close (cur : nat) : M postgres unit := ret tt.

(** [conn.close()]: what the transaction had not committed is lost. *)
Definition close (conn : nat) : M postgres unit :=
  fun s => (Return tt, set_connections (<[conn := Closed]> (connections s)) s).

(** [row[...]] on what [fetchone] gave: [None] is not subscriptable. *)
Definition the_row {A} (row : option A) : M postgres A :=
  match row with
  | Some r => ret r
  | None => raise TypeError
  end.

(** ** The statements *)

(** [INSERT INTO locations (name, state) VALUES (%s, %s)
    RETURNING location_id, name, state] *)
Definition insert_location (name : string) (state : option string) : statement Location.t :=
  fun _ seqs t =>
    let id := locations_seq seqs + 1 in
    let row := Location.Make id name state in
    (Result [row] 1,
     Serials id (weather_observations_seq seqs) (rain_predictions_seq seqs),
     Tables (locations_table t ++ [row]) (weather_observations_table t)
            (rain_predictions_table t)).

(** [SELECT location_id, name, state FROM locations] *)
Definition select_locations : statement Location.t :=
  fun _ seqs t =>
    (Result (locations_table t) (Z.of_nat (length (locations_table t))), seqs, t).

(** [SELECT location_id, name, state FROM locations WHERE location_id = %s] *)
Definition select_location (id : Z) : statement Location.t :=
  fun _ seqs t =>
    let found := List.filter (fun r => Location.location_id r =? id) (locations_table t) in
    (Result found (Z.of_nat (length found)), seqs, t).

(** [UPDATE locations SET name = %s, state = %s WHERE location_id = %s
    RETURNING location_id, name, state] *)
Definition update_location_set (id : Z) (name : string) (state : option string)
  : statement Location.t :=
  fun _ seqs t =>
    let hit r := Location.location_id r =? id in
    let set r := Location.Make (Location.location_id r) name state in
    let updated := map set (List.filter hit (locations_table t)) in
    (Result updated (Z.of_nat (length updated)), seqs,
     Tables (map (fun r => if hit r then set r else r) (locations_table t))
            (weather_observations_table t) (rain_predictions_table t)).

(** [DELETE FROM locations WHERE location_id = %s] *)
Definition delete_from_locations (id : Z) : statement unit :=
  fun _ seqs t =>
    let hit r := Location.location_id r =? id in
    (Result [] (Z.of_nat (length (List.filter hit (locations_table t)))), seqs,
     Tables (List.filter (fun r => negb (hit r)) (locations_table t))
            (weather_observations_table t) (rain_predictions_table t)).

(** [INSERT INTO weather_observations (...) VALUES (...) RETURNING observation_id] *)
Definition insert_observation (obs : ObservationBase.t) : statement Z :=
  fun _ seqs t =>
    let id := weather_observations_seq seqs + 1 in
    (Result [id] 1,
     Serials (locations_seq seqs) id (rain_predictions_seq seqs),
     Tables (locations_table t)
            (weather_observations_table t ++ [Observation.Make id obs])
            (rain_predictions_table t)).

(** [SELECT * FROM weather_observations] *)
Definition select_observations : statement Observation.t :=
  fun _ seqs t =>
    (Result (weather_observations_table t)
            (Z.of_nat (length (weather_observations_table t))), seqs, t).

(** [SELECT * FROM weather_observations WHERE observation_id = %s] *)
Definition select_observation (id : Z) : statement Observation.t :=
  fun _ seqs t =>
    let found := List.filter (fun r => Observation.observation_id r =? id)
                             (weather_observations_table t) in
    (Result found (Z.of_nat (length found)), seqs, t).

(** [UPDATE weather_observations SET location_id=%s, ..., rain_tomorrow=%s
    WHERE observation_id=%s RETURNING *] *)
Definition update_observation_set (id : Z) (obs : ObservationBase.t)
  : statement Observation.t :=
  fun _ seqs t =>
    let hit r := Observation.observation_id r =? id in
    let set r := Observation.Make (Observation.observation_id r) obs in
    let updated := map set (List.filter hit (weather_observations_table t)) in
    (Result updated (Z.of_nat (length updated)), seqs,
     Tables (locations_table t)
            (map (fun r => if hit r then set r else r) (weather_observations_table t))
            (rain_predictions_table t)).

(** [DELETE FROM weather_observations WHERE observation_id = %s] *)
Definition delete_from_observations (id : Z) : statement unit :=
  fun _ seqs t =>
    let hit r := Observation.observation_id r =? id in
    (Result [] (Z.of_nat (length (List.filter hit (weather_observations_table t)))), seqs,
     Tables (locations_table t)
            (List.filter (fun r => negb (hit r)) (weather_observations_table t))
            (rain_predictions_table t)).

(** [INSERT INTO rain_predictions (observation_id, will_it_rain)
    VALUES (%s, %s) RETURNING prediction_id, predicted_at].

    Modelled from the spec: the column default of [predicted_at] is in the
    missing DDL; the timestamp is "server-assigned", the server's clock
    when the row is inserted. *)
Definition insert_prediction (observation_id : Z) (will_it_rain : bool)
  : statement (Z * datetime) :=
  fun clock seqs t =>
    let id := rain_predictions_seq seqs + 1 in
    (Result [(id, clock)] 1,
     Serials (locations_seq seqs) (weather_observations_seq seqs) id,
     Tables (locations_table t) (weather_observations_table t)
            (rain_predictions_table t
               ++ [Prediction.Make id observation_id will_it_rain clock])).

(** [SELECT * FROM rain_predictions] *)
Definition select_predictions : statement Prediction.t :=
  fun _ seqs t =>
    (Result (rain_predictions_table t)
            (Z.of_nat (length (rain_predictions_table t))), seqs, t).

(** [SELECT * FROM rain_predictions WHERE prediction_id = %s] *)
Definition select_prediction (id : Z) : statement Prediction.t :=
  fun _ seqs t =>
    let found := List.filter (fun r => Prediction.prediction_id r =? id)
                             (rain_predictions_table t) in
    (Result found (Z.of_nat (length found)), seqs, t).

(** [UPDATE rain_predictions SET observation_id=%s, will_it_rain=%s
    WHERE prediction_id=%s
    RETURNING prediction_id, observation_id, will_it_rain, predicted_at]:
    the two columns named by [SET] change, [predicted_at] is not among them. *)
Definition update_prediction_set (id : Z) (observation_id : Z) (will_it_rain : bool)
  : statement Prediction.t :=
  fun _ seqs t =>
    let hit r := Prediction.prediction_id r =? id in
    let set r := Prediction.Make (Prediction.prediction_id r) observation_id will_it_rain
                                 (Prediction.predicted_at r) in
    let updated := map set (List.filter hit (rain_predictions_table t)) in
    (Result updated (Z.of_nat (length updated)), seqs,
     Tables (locations_table t) (weather_observations_table t)
            (map (fun r => if hit r then set r else r) (rain_predictions_table t))).

(** [DELETE FROM rain_predictions WHERE prediction_id = %s] *)
Definition delete_from_predictions (id : Z) : statement unit :=
  fun _ seqs t =>
    let hit r := Prediction.prediction_id r =? id in
    (Result [] (Z.of_nat (length (List.filter hit (rain_predictions_table t)))), seqs,
     Tables (locations_table t) (weather_observations_table t)
            (List.filter (fun r => negb (hit r)) (rain_predictions_table t))).

(* ===================================================================== *)
(** * [api/weather_api.py]: the relational endpoints                      *)
(* ===================================================================== *)

(** [create_location] *)
Definition create_location (loc : LocationBase.t) : M postgres Location.t :=
  let* conn := get_db_connection in
  let* cur := cursor conn in
  let* res := execute cur (insert_location (LocationBase.name loc) (LocationBase.state loc)) in
  let row := fetchone res in
  commit conn >>
  cursor_close cur >>
  close conn >>
  let* row := the_row row in
  ret row.

(** [read_locations] *)
Definition read_locations : M postgres (list Location.t) :=
  let* conn := get_db_connection in
  let* cur := cursor conn in
  let* res := execute cur select_locations in
  let rows := fetchall res in
  cursor_close cur >>
  close conn >>
  ret rows.

(** [read_location] *)
Definition read_location (location_id : Z) : M postgres Location.t :=
  let* conn := get_db_connection in
  let* cur := cursor conn in
  let* res := execute cur (select_location location_id) in
  let row := fetchone res in
  cursor_close cur >>
  close conn >>
  match row with
  | None => raise (HTTPException 404 [Lit "Location not found"])
  | Some row => ret row
  end.

(** [update_location] *)
Definition update_location (location_id : Z) (loc : LocationBase.t) : M postgres Location.t :=
  let* conn := get_db_connection in
  let* cur := cursor conn in
  let* res := execute cur (update_location_set location_id (LocationBase.name loc)
                                               (LocationBase.state loc)) in
  let row := fetchone res in
  commit conn >>
  cursor_close cur >>
  close conn >>
  match row with
  | None => raise (HTTPException 404 [Lit "Location not found"])
  | Some row => ret row
  end.

(** [delete_location] *)
Definition delete_location (location_id : Z) : M postgres unit :=
  let* conn := get_db_connection in
  let* cur := cursor conn in
  let* res := execute cur (delete_from_locations location_id) in
  if rowcount res =? 0
  then
    cursor_close cur >>
    close conn >>
    raise (HTTPException 404 [Lit "Location not found"])
  else
    commit conn >>
    cursor_close cur >>
    close conn.

(** [create_observation] *)
Definition create_observation (obs : ObservationBase.t) : M postgres Observation.t :=
  let* conn := get_db_connection in
  let* cur := cursor conn in
  let* res := execute cur (insert_observation obs) in
  let row := fetchone res in
  commit conn >>
  cursor_close cur >>
  close conn >>
  let* observation_id := the_row row in
  ret (Observation.Make observation_id obs).

(** [read_observations] *)
Definition read_observations : M postgres (list Observation.t) :=
  let* conn := get_db_connection in
  let* cur := cursor conn in
  let* res := execute cur select_observations in
  let rows := fetchall res in
  cursor_close cur >>
  close conn >>
  ret rows.

(** [read_observation] *)
Definition read_observation (observation_id : Z) : M postgres Observation.t :=
  let* conn := get_db_connection in
  let* cur := cursor conn in
  let* res := execute cur (select_observation observation_id) in
  let row := fetchone res in
  cursor_close cur >>
  close conn >>
  match row with
  | None => raise (HTTPException 404 [Lit "Observation not found"])
  | Some row => ret row
  end.

(** [update_observation] *)
Definition update_observation (observation_id : Z) (obs : ObservationBase.t)
  : M postgres Observation.t :=
  let* conn := get_db_connection in
  let* cur := cursor conn in
  let* res := execute cur (update_observation_set observation_id obs) in
  let row := fetchone res in
  commit conn >>
  cursor_close cur >>
  close conn >>
  match row with
  | None => raise (HTTPException 404 [Lit "Observation not found"])
  | Some row => ret row
  end.

(** [delete_observation] *)
Definition delete_observation (observation_id : Z) : M postgres unit :=
  let* conn := get_db_connection in
  let* cur := cursor conn in
  let* res := execute cur (delete_from_observations observation_id) in
  if rowcount res =? 0
  then
    cursor_close cur >>
    close conn >>
    raise (HTTPException 404 [Lit "Observation not found"])
  else
    commit conn >>
    cursor_close cur >>
    close conn.

(** [create_prediction] *)
Definition create_prediction (pred : PredictionBase.t) : M postgres Prediction.t :=
  let* conn := get_db_connection in
  let* cur := cursor conn in
  let* res := execute cur (insert_prediction (PredictionBase.observation_id pred)
                                             (PredictionBase.will_it_rain pred)) in
  let row := fetchone res in
  commit conn >>
  cursor_close cur >>
  close conn >>
  let* row := the_row row in
  ret (Prediction.Make (fst row) (PredictionBase.observation_id pred)
                       (PredictionBase.will_it_rain pred) (snd row)).

(** [read_predictions] *)
Definition read_predictions : M postgres (list Prediction.t) :=
  let* conn := get_db_connection in
  let* cur := cursor conn in
  let* res := execute cur select_predictions in
  let rows := fetchall res in
  cursor_close cur >>
  close conn >>
  ret rows.

(** [read_prediction] *)
Definition read_prediction (prediction_id : Z) : M postgres Prediction.t :=
  let* conn := get_db_connection in
  let* cur := cursor conn in
  let* res := execute cur (select_prediction prediction_id) in
  let row := fetchone res in
  cursor_close cur >>
  close conn >>
  match row with
  | None => raise (HTTPException 404 [Lit "Prediction not found"])
  | Some row => ret row
  end.

(** [update_prediction] *)
Definition update_prediction (prediction_id : Z) (pred : PredictionBase.t)
  : M postgres Prediction.t :=
  let* conn := get_db_connection in
  let* cur := cursor conn in
  let* res := execute cur (update_prediction_set prediction_id
                             (PredictionBase.observation_id pred)
                             (PredictionBase.will_it_rain pred)) in
  let row := fetchone res in
  commit conn >>
  cursor_close cur >>
  close conn >>
  match row with
  | None => raise (HTTPException 404 [Lit "Prediction not found"])
  | Some row => ret row
  end.

(** [delete_prediction] *)
Definition delete_prediction (prediction_id : Z) : M postgres unit :=
  let* conn := get_db_connection in
  let* cur := cursor conn in
  let* res := execute cur (delete_from_predictions prediction_id) in
  if rowcount res =? 0
  then
    cursor_close cur >>
    close conn >>
    raise (HTTPException 404 [Lit "Prediction not found"])
  else
    commit conn >>
    cursor_close cur >>
    close conn.

(** The relational endpoints, as requests. *)
Inductive request :=
| CreateLocation (loc : LocationBase.t)
| ReadLocations
| ReadLocation (location_id : Z)
| UpdateLocation (location_id : Z) (loc : LocationBase.t)
| DeleteLocation (location_id : Z)
| CreateObservation (obs : ObservationBase.t)
| ReadObservations
| ReadObservation (observation_id : Z)
| UpdateObservation (observation_id : Z) (obs : ObservationBase.t)
| DeleteObservation (observation_id : Z)
| CreatePrediction (pred : PredictionBase.t)
| ReadPredictions
| ReadPrediction (prediction_id : Z)
| UpdatePrediction (prediction_id : Z) (pred : PredictionBase.t)
| DeletePrediction (prediction_id : Z).

(** How an endpoint leaves: it returns, or the exception it raises. *)
Definition exit_of {A} (r : outcome A * postgres) : option exn * postgres :=
  match r with
  | (Return _, s) => (None, s)
  | (Raise e, s) => (Some e, s)
  end.

Definition serve (r : request) (s : postgres) : option exn * postgres :=
  match r with
  | CreateLocation loc => exit_of (create_location loc s)
  | ReadLocations => exit_of (read_locations s)
  | ReadLocation id => exit_of (read_location id s)
  | UpdateLocation id loc => exit_of (update_location id loc s)
  | DeleteLocation id => exit_of (delete_location id s)
  | CreateObservation obs => exit_of (create_observation obs s)
  | ReadObservations => exit_of (read_observations s)
  | ReadObservation id => exit_of (read_observation id s)
  | UpdateObservation id obs => exit_of (update_observation id obs s)
  | DeleteObservation id => exit_of (delete_observation id s)
  | CreatePrediction pred => exit_of (create_prediction pred s)
  | ReadPredictions => exit_of (read_predictions s)
  | ReadPrediction id => exit_of (read_prediction id s)
  | UpdatePrediction id pred => exit_of (update_prediction id pred s)
  | DeletePrediction id => exit_of (delete_prediction id s)
  end.

(* ===================================================================== *)
(** * Vocabulary of the properties                                        *)
(* ===================================================================== *)

(** The document of collection [c] that the id [n] under key [k] refers
    to: what [find_one({k: n})] answers. *)
Definition referenced (c : collection) (k : string) (n : Z) (w : world) : option dict :=
  List.find (matches k (VInt n)) (coll c w).

(** [n] calls of the allocator for one entity type, one after the other. *)
Definition successive_calls (entity_type : string) (n : nat) : M world (list Z) :=
  for_each (fun _ : unit => get_next_sequence_value entity_type) (replicate n tt).

(** No document of [c] carries the ObjectId the store hands out next. *)
Definition next_oid_unused (c : collection) (w : world) : Prop :=
  existsb (matches "_id" (VObjectId (next_oid w))) (coll c w) = false.

(** The value the allocator returns next for an entity type. *)
Definition next_id (entity_type : string) (w : world) : Z :=
  default 0 (counters w !! entity_type) + 1.

(** The fields the mapper writes for an Observation: those of the request,
    with the date taken to midnight. *)
Definition stored_fields (obs : ObservationBase.t) : dict :=
  <["date" := VDatetime (combine (ObservationBase.date obs) min_time)]>
    (ObservationBase.dict obs).

(** A document holds what the mapper wrote for [obs] under [id]. *)
Definition holds (doc : dict) (obs : ObservationBase.t) (id : Z) : Prop :=
  (forall k v, stored_fields obs !! k = Some v -> doc !! k = Some v)
  /\ doc !! "observation_id" = Some (VInt id).

(** A value a field takes as it is. *)
Definition admissible (f : field) (v : value) : bool :=
  match v with
  | VNone => field_optional f
  | _ => accepts (field_type f) v
  end.

(** [m] neither reads nor writes collection [c]: replacing the contents
    of [c] beforehand changes nothing but the contents of [c] afterwards. *)
Definition ignores (c : collection) {A} (m : M world A) : Prop :=
  forall l w, m (set_coll c l w) = (fst (m w), set_coll c l (snd (m w))).

(** ** Well-formed stores

    Every [_id] in use is an ObjectId the store has handed out, and every
    [observation_id] in use is an integer the allocator has issued. *)

Definition oids_handed_out (w : world) : Prop :=
  forall c d v,
    In d (coll c w) -> d !! "_id" = Some v ->
    exists o, v = VObjectId o /\ (o < next_oid w)%N.

Definition observation_ids_issued (w : world) : Prop :=
  forall d v,
    In d (weather_observations w) -> d !! "observation_id" = Some v ->
    exists n, v = VInt n /\ n <= default 0 (counters w !! "observations").

Definition well_formed (w : world) : Prop :=
  oids_handed_out w /\ observation_ids_issued w.

(** [m] takes well-formed stores to well-formed stores, however it ends. *)
Definition keeps {A} (m : M world A) : Prop :=
  forall w, well_formed w -> well_formed (m w).2.

(** The requests of the document-store API. *)
Inductive call :=
| CreateMongoLocation (loc : MongoLocationBase.t)
| ReadMongoLocations
| ReadMongoLocation (location_id : Z)
| UpdateMongoLocation (location_id : Z) (loc : LocationBase.t)
| DeleteMongoLocation (location_id : Z)
| CreateMongoObservation (obs : ObservationBase.t)
| ReadMongoObservations
| ReadMongoObservation (observation_id : Z)
| UpdateMongoObservation (observation_id : Z) (obs : ObservationBase.t)
| DeleteMongoObservation (observation_id : Z)
| CreateMongoPrediction (pred : MongoPredictionBase.t)
| ReadMongoPredictions
| ReadMongoPrediction (prediction_id : Z)
| UpdateMongoPrediction (prediction_id : Z) (pred : PredictionBase.t)
| DeleteMongoPrediction (prediction_id : Z).

(** The store a request leaves behind. *)
Definition after (r : call) (w : world) : world :=
  match r with
  | CreateMongoLocation loc => (create_mongo_location loc w).2
  | ReadMongoLocations => (read_mongo_locations w).2
  | ReadMongoLocation id => (read_mongo_location id w).2
  | UpdateMongoLocation id loc => (update_mongo_location id loc w).2
  | DeleteMongoLocation id => (delete_mongo_location id w).2
  | CreateMongoObservation obs => (create_mongo_observation obs w).2
  | ReadMongoObservations => (read_mongo_observations w).2
  | ReadMongoObservation id => (read_mongo_observation id w).2
  | UpdateMongoObservation id obs => (update_mongo_observation id obs w).2
  | DeleteMongoObservation id => (delete_mongo_observation id w).2
  | CreateMongoPrediction pred => (create_mongo_prediction pred w).2
  | ReadMongoPredictions => (read_mongo_predictions w).2
  | ReadMongoPrediction id => (read_mongo_prediction id w).2
  | UpdateMongoPrediction id pred => (update_mongo_prediction id pred w).2
  | DeleteMongoPrediction id => (delete_mongo_prediction id w).2
  end.

(** Time passes between requests. *)
Definition set_clock (t utc : datetime) (w : world) : world :=
  World (counters w) (locations w) (weather_observations w) (rain_predictions w)
        (next_oid w) t utc.

(** The stores the API can bring about, starting with nothing stored. *)
Inductive reachable : world -> Prop :=
| reachable_empty t utc : reachable (World ∅ [] [] [] 0 t utc)
| reachable_call r w : reachable w -> reachable (after r w)
| reachable_tick t utc w : reachable w -> reachable (set_clock t utc w).



(** ** The scenario of the specification, run on the model

    An empty store; location 1 ("Sydney", "NSW"); observation 1 for it on
    2023-01-01; prediction 1 for that observation; location 1 deleted. *)

Definition clock_now : datetime := Datetime (Date 2024 5 6) (Time 7 8 9 123456).

Definition clock_utcnow : datetime := Datetime (Date 2024 5 6) (Time 5 8 9 123456).

Definition empty_store : world := World ∅ [] [] [] 0 clock_now clock_utcnow.

Definition sydney : MongoLocationBase.t := MongoLocationBase.Make "Sydney" (Some "NSW").

Definition new_year : ObservationBase.t :=
  ObservationBase.Make 1 (Date 2023 1 1) (Some 17.5%float) (Some 26%float) None
    None None None None None None (Some "NNE") None None None None None
    (Some false) (Some true).


Definition rain_for (observation_id : Z) : MongoPredictionBase.t :=
  MongoPredictionBase.Make observation_id true (Datetime (Date 1999 12 31) min_time).

Definition with_location : world :=
  Eval vm_compute in snd (create_mongo_location sydney empty_store).

Definition with_observation : world :=
  Eval vm_compute in snd (create_mongo_observation new_year with_location).

Definition with_prediction : world :=
  Eval vm_compute in snd (create_mongo_prediction (rain_for 1) with_observation).

Definition location_deleted : world :=
  Eval vm_compute in snd (delete_mongo_location 1 with_prediction).

(** A second observation for location 1, made before the location goes. *)
Definition two_observations : world :=
  Eval vm_compute in snd (create_mongo_observation new_year with_prediction).



(** Observation 1 as the store holds it. *)
Definition stored_observation : dict :=
  Eval vm_compute in
    default ∅ (referenced WeatherObservations "observation_id" 1 with_observation).

(** How a relational endpoint leaves the connections: with the one it made
    closed behind the list [l] it found, unless a call to the server failed,
    in which case either none was made or the one made is still open. *)
Definition left_as (l : list connection) (r : option exn * postgres) : Prop :=
  match r.1 with
  | Some Psycopg2Error =>
      connections r.2 = l \/ exists t, connections r.2 = l ++ [Open t]
  | _ => connections r.2 = l ++ [Closed]
  end.

(** ** The relational store of the scenario

    A prediction row inserted on the last day of 1999, looked at again
    when the server's clock shows [clock_now]; and a server that accepts a
    connection and then fails the statement. *)

Definition new_server (fails : list bool) (clock : datetime) : postgres :=
  Postgres (Tables [] [] []) (Serials 0 0 0) [] fails clock.




Definition failing_server : postgres := new_server [false; true] clock_now.

(* ===================================================================== *)
(** * The store primitives, step by step                                  *)
(* ===================================================================== *)

Lemma find_one_int c k n w :
  find_one c k (VInt n) w = (Return (referenced c k n w), w).
Proof. reflexivity. Qed.

Lemma find_one_oid c o w :
  find_one c "_id" (VObjectId o) w
  = (Return (List.find (matches "_id" (VObjectId o)) (coll c w)), w).
Proof. reflexivity. Qed.

Lemma matches_int_lookup k n d :
  matches k (VInt n) d = true -> exists v, d !! k = Some v /\ bson_eq (VInt n) v = true.
Proof.
  unfold matches. destruct (d !! k) as [v|]; [eauto | discriminate].
Qed.

Lemma matched_doc_not_empty k n d :
  matches k (VInt n) d = true -> not_doc (Some d) = false.
Proof.
  intros (v & Hv & _)%matches_int_lookup. simpl.
  apply Nat.eqb_neq. intros Hsize%map_size_empty_iff.
  rewrite Hsize in Hv. by rewrite lookup_empty in Hv.
Qed.

Lemma referenced_matches c k n w d :
  referenced c k n w = Some d -> matches k (VInt n) d = true.
Proof. intros H. apply (find_some _ _ H). Qed.

Lemma referenced_not_empty c k n w d :
  referenced c k n w = Some d -> not_doc (Some d) = false.
Proof. intros H. eapply matched_doc_not_empty, referenced_matches, H. Qed.

Lemma verify_location_exists_missing n w :
  referenced Locations "location_id" n w = None ->
  verify_location_exists (VInt n) w
  = (Raise (HTTPException 404
              [Lit "Location with ID "; Fmt (VInt n);
               Lit " not found. Please create the location first."]), w).
Proof.
  intros H. unfold verify_location_exists, bind.
  by rewrite find_one_int, H.
Qed.

Lemma verify_location_exists_found n w d :
  referenced Locations "location_id" n w = Some d ->
  verify_location_exists (VInt n) w = (Return true, w).
Proof.
  intros H. unfold verify_location_exists, bind.
  rewrite find_one_int, H. by rewrite (referenced_not_empty _ _ _ _ _ H).
Qed.

Lemma get_next_sequence_value_eq T w :
  get_next_sequence_value T w
  = (Return (next_id T w), set_counters (<[T := next_id T w]> (counters w)) w).
Proof. reflexivity. Qed.

(* ===================================================================== *)
(** * Sequence allocator                                                  *)
(* ===================================================================== *)

Lemma successive_calls_from T n : forall w,
  exists w',
    successive_calls T n w
    = (Return (map (fun i => default 0 (counters w !! T) + Z.of_nat i) (seq 1 n)), w').
Proof.
  induction n as [|n IH]; intros w.
  - by exists w.
  - unfold successive_calls in *. cbn [replicate for_each]. unfold bind at 1.
    rewrite get_next_sequence_value_eq.
    destruct (IH (set_counters (<[T := next_id T w]> (counters w)) w)) as [w' Hw'].
    exists w'. unfold bind at 1. rewrite Hw'. unfold ret. do 2 f_equal.
    cbn [seq map]. rewrite <- (seq_shift n 1), map_map.
    change (Z.of_nat 1) with 1. f_equal. apply map_ext. intros i.
    cbn [counters set_counters]. rewrite lookup_insert_eq. unfold next_id. cbn. lia.
Qed.

Lemma seq_of_nat_sorted a n : StronglySorted Z.lt (map Z.of_nat (seq a n)).
Proof.
  revert a. induction n as [|n IH]; intros a; cbn; [constructor |].
  constructor; [apply IH |].
  apply Stdlib.Lists.List.Forall_forall. intros z Hz. apply in_map_iff in Hz as (i & <- & Hi).
  apply in_seq in Hi. lia.
Qed.

Lemma seq_of_nat_NoDup a n : NoDup (map Z.of_nat (seq a n)).
Proof.
  apply NoDup_fmap_2; [intros x y; lia | apply NoDup_seq].
Qed.

(** C4. Starting from an absent counter, [N] successive calls of the
    allocator for an entity type return exactly 1, 2, ..., N: the first
    call creates the counter and returns 1, the values are strictly
    increasing and no two of them are equal. *)
Theorem allocator_counts_from_one (T : string) (N : nat) (w : world) :
  counters w !! T = None ->
  exists w',
    successive_calls T N w = (Return (map Z.of_nat (seq 1 N)), w')
    /\ fst (get_next_sequence_value T w) = Return 1
    /\ StronglySorted Z.lt (map Z.of_nat (seq 1 N))
    /\ NoDup (map Z.of_nat (seq 1 N)).
Proof.
  intros Habsent. destruct (successive_calls_from T N w) as [w' Hw'].
  exists w'. rewrite Hw', Habsent. repeat split.
  - rewrite get_next_sequence_value_eq. unfold next_id. by rewrite Habsent.
  - apply seq_of_nat_sorted.
  - apply seq_of_nat_NoDup.
Qed.

Lemma allocator_counts_from_one_witness :
  exists w',
    successive_calls "observations" 3
      (World ∅ [] [] [] 0 (Datetime (Date 2023 1 1) min_time)
             (Datetime (Date 2023 1 1) min_time))
    = (Return (map Z.of_nat (seq 1 3)), w')
    /\ fst (get_next_sequence_value "observations"
              (World ∅ [] [] [] 0 (Datetime (Date 2023 1 1) min_time)
                     (Datetime (Date 2023 1 1) min_time))) = Return 1
    /\ StronglySorted Z.lt (map Z.of_nat (seq 1 3))
    /\ NoDup (map Z.of_nat (seq 1 3)).
Proof. apply allocator_counts_from_one. reflexivity. Defined.

(* ===================================================================== *)
(** * Referential validation on create                                    *)
(* ===================================================================== *)

Lemma referenced_set_counters c k n m w :
  referenced c k n (set_counters m w) = referenced c k n w.
Proof. by destruct c. Qed.


(** What [create_mongo_prediction] does when the Observation is unknown:
    the 404 comes after the allocator has been called. *)
Lemma create_prediction_unknown_observation (pred : MongoPredictionBase.t) (w : world) :
  referenced WeatherObservations "observation_id"
             (MongoPredictionBase.observation_id pred) w = None ->
  create_mongo_prediction pred w
  = (Raise (HTTPException 404
              [Lit "Observation with ID ";
               Fmt (VInt (MongoPredictionBase.observation_id pred));
               Lit " not found"]),
     set_counters (<["predictions" := next_id "predictions" w]> (counters w)) w).
Proof.
  intros Hmissing. unfold create_mongo_prediction, try_except_reraise_http, bind.
  rewrite get_next_sequence_value_eq, find_one_int, referenced_set_counters.
  by rewrite Hmissing.
Qed.

(** C6. Creating a document-store Prediction whose Observation exists,
    while the [location_id] stored in that Observation refers to no
    Location, fails with a 404; no prediction document is written. *)
Theorem create_prediction_dangling_location
    (pred : MongoPredictionBase.t) (w : world) (observation : dict) (lid : Z) :
  referenced WeatherObservations "observation_id"
             (MongoPredictionBase.observation_id pred) w = Some observation ->
  observation !! "location_id" = Some (VInt lid) ->
  referenced Locations "location_id" lid w = None ->
  exists w',
    create_mongo_prediction pred w
    = (Raise (HTTPException 404
                [Lit "Location with ID "; Fmt (VInt lid);
                 Lit " not found. Please create the location first."]), w')
    /\ rain_predictions w' = rain_predictions w
    /\ weather_observations w' = weather_observations w
    /\ locations w' = locations w.
Proof.
  intros Hobs Hlid Hmissing.
  exists (set_counters (<["predictions" := next_id "predictions" w]> (counters w)) w).
  split; [| done].
  unfold create_mongo_prediction, try_except_reraise_http, bind.
  rewrite get_next_sequence_value_eq, find_one_int, referenced_set_counters, Hobs.
  rewrite (referenced_not_empty _ _ _ _ _ Hobs). cbn [the_doc ret].
  unfold getitem. rewrite Hlid. cbn [ret].
  rewrite verify_location_exists_missing; [done |].
  by rewrite referenced_set_counters.
Qed.


Lemma create_prediction_dangling_location_witness :
  exists w',
    create_mongo_prediction (rain_for 1) location_deleted
    = (Raise (HTTPException 404
                [Lit "Location with ID "; Fmt (VInt 1);
                 Lit " not found. Please create the location first."]), w')
    /\ rain_predictions w' = rain_predictions location_deleted
    /\ weather_observations w' = weather_observations location_deleted
    /\ locations w' = locations location_deleted.
Proof.
  apply (create_prediction_dangling_location (rain_for 1) location_deleted
           stored_observation 1).
  - vm_compute. exact eq_refl.
  - vm_compute. exact eq_refl.
  - vm_compute. exact eq_refl.
Defined.

(** C1. On a store without observation 7, creating a Prediction for
    observation 7 ends in the 404, but the allocator has already run: the
    [predictions] counter, absent before, is left at 1. *)
Theorem create_prediction_allocates_before_check :
  counters empty_store !! "predictions" = None
  /\ referenced WeatherObservations "observation_id" 7 empty_store = None
  /\ create_mongo_prediction (rain_for 7) empty_store
     = (Raise (HTTPException 404
                 [Lit "Observation with ID "; Fmt (VInt 7); Lit " not found"]),
        set_counters {[ "predictions" := 1 ]} empty_store)
  /\ counters (snd (create_mongo_prediction (rain_for 7) empty_store)) !! "predictions"
     = Some 1.
Proof. vm_compute. repeat split. Qed.

(* ===================================================================== *)
(** * Computations that leave a collection alone                          *)
(* ===================================================================== *)

Section Frame.
Variable c : collection.
Local Abbreviation ignores := (ignores c).

Lemma ignores_ret {A} (a : A) : ignores (ret a).
Proof. done. Qed.

Lemma ignores_raise {A} e : ignores (raise (A := A) e).
Proof. done. Qed.

Lemma ignores_bind {A B} (m : M world A) (k : A -> M world B) :
  ignores m -> (forall a, ignores (k a)) -> ignores (bind m k).
Proof.
  intros Hm Hk l w. unfold bind. rewrite Hm.
  destruct (m w) as [[a|e] w']; cbn [fst snd]; [apply Hk | done].
Qed.

Lemma ignores_try_except_reraise_http {A} (m : M world A) h :
  ignores m -> ignores (try_except_reraise_http m h).
Proof.
  intros Hm l w. unfold try_except_reraise_http. rewrite Hm.
  by destruct (m w) as [[a|[]] w'].
Qed.

Lemma ignores_try_except {A} (m : M world A) h :
  ignores m -> ignores (try_except m h).
Proof.
  intros Hm l w. unfold try_except. rewrite Hm.
  by destruct (m w) as [[a|e] w'].
Qed.

Lemma ignores_when {A} b (m : M world A) : ignores m -> ignores (when b m).
Proof.
  intros Hm. destruct b; cbn [when]; [| apply ignores_ret].
  apply ignores_bind; [done | intros; apply ignores_ret].
Qed.

Lemma ignores_getitem d k : ignores (getitem d k).
Proof. unfold getitem. destruct (d !! k); [apply ignores_ret | apply ignores_raise]. Qed.

Lemma ignores_the_doc doc : ignores (the_doc doc).
Proof. destruct doc; [apply ignores_ret | apply ignores_raise]. Qed.



Lemma ignores_BaseModel model fs kwargs : ignores (BaseModel model fs kwargs).
Proof.
  intros l w. unfold BaseModel.
  replace (utcnow (set_coll c l w)) with (utcnow w) by (by destruct c).
  by destruct (validate_fields _ _ _).
Qed.

Lemma ignores_datetime_now : ignores datetime_now.
Proof. intros l w. unfold datetime_now. by destruct c. Qed.

Lemma ignores_find_one c' k q : c <> c' -> ignores (find_one c' k q).
Proof.
  intros Hc l w. unfold find_one.
  destruct (encodable q); [| done].
  by destruct c, c'.
Qed.


Lemma ignores_delete_one c' k q : c <> c' -> ignores (delete_one c' k q).
Proof.
  intros Hc. unfold delete_one.
  destruct (encodable q); [| apply ignores_raise].
  intros l w.
  replace (coll c' (set_coll c l w)) with (coll c' w) by (by destruct c, c').
  destruct (existsb _ _); [| done].
  by destruct c, c'.
Qed.

End Frame.

(** Reading an Observation consults the observations and nothing else. *)
Lemma read_mongo_observation_ignores c observation_id :
  c <> WeatherObservations -> ignores c (read_mongo_observation observation_id).
Proof.
  intros Hc. unfold read_mongo_observation.
  apply ignores_try_except_reraise_http.
  apply ignores_bind; [by apply ignores_find_one |].
  intros doc. destruct (not_doc doc); [apply ignores_raise |].
  apply ignores_bind; [apply ignores_the_doc |]. intros d.
  apply ignores_bind; [apply ignores_BaseModel |]. intros observation.
  apply ignores_bind; [apply ignores_getitem |]. intros location_id.
  apply ignores_bind; [apply ignores_getitem |]. intros date.
  apply ignores_ret.
Qed.


(* ===================================================================== *)
(** * Lists of documents                                                  *)
(* ===================================================================== *)

Lemma existsb_find_some (p : dict -> bool) l d :
  List.find p l = Some d -> existsb p l = true.
Proof.
  intros H. apply existsb_exists. exists d.
  split; [apply (find_some _ _ H) | apply (find_some _ _ H)].
Qed.

Lemma existsb_find_none (p : dict -> bool) l :
  List.find p l = None -> existsb p l = false.
Proof.
  induction l as [|x l IH]; cbn; [done |].
  destruct (p x); [done | exact IH].
Qed.

Lemma find_existsb_false (p : dict -> bool) l :
  existsb p l = false -> List.find p l = None.
Proof.
  induction l as [|x l IH]; cbn; [done |].
  destruct (p x); [done | exact IH].
Qed.


Lemma find_snoc_fresh (p : dict -> bool) l d :
  existsb p l = false -> p d = true -> List.find p (l ++ [d]) = Some d.
Proof.
  induction l as [|x l IH]; cbn.
  - intros _ ->. done.
  - destruct (p x); [done | exact IH].
Qed.

Lemma remove_first_split (p : dict -> bool) l d :
  List.find p l = Some d ->
  exists l1 l2 : list dict,
    l = (l1 ++ d :: l2)%list /\ remove_first p l = (l1 ++ l2)%list
    /\ existsb p l1 = false.
Proof.
  induction l as [|x l IH]; cbn; [done |].
  destruct (p x) eqn:Hx.
  - intros [= ->]. by exists [], l.
  - intros (l1 & l2 & -> & Hrem & Hl1)%IH. exists (x :: l1), l2.
    cbn. by rewrite Hrem, Hx, Hl1.
Qed.

(* ===================================================================== *)
(** * Writing and validating documents                                    *)
(* ===================================================================== *)

Lemma bson_encode_encodable {S} (d : dict) (s : S) :
  map_Forall (fun _ v => encodable v = true) d ->
  bson_encode d s = (Return (bson_value <$> d), s).
Proof.
  intros Hd. unfold bson_encode.
  replace (forallb _ _) with true; [done |].
  symmetry. apply forallb_forall. intros [k v] Hkv. cbn.
  apply (Hd k). apply elem_of_map_to_list. by apply list_elem_of_In.
Qed.

Lemma bson_value_fixed (d : dict) :
  map_Forall (fun _ v => bson_value v = v) d -> bson_value <$> d = d.
Proof.
  intros Hd. apply map_eq. intros k. rewrite lookup_fmap.
  destruct (d !! k) as [v|] eqn:Hk; [| done]. cbn. by rewrite (Hd k v Hk).
Qed.


Lemma validate_field_present utc f kwargs v :
  kwargs !! field_name f = Some v -> admissible f v = true ->
  validate_field utc f kwargs = Some v.
Proof.
  intros Hk Hv. unfold validate_field. rewrite Hk.
  destruct v; cbn in Hv; by rewrite Hv.
Qed.

Lemma validate_fields_present utc fs kwargs vs :
  Forall2 (fun f v => kwargs !! field_name f = Some v /\ admissible f v = true) fs vs ->
  validate_fields utc fs kwargs = Some (list_to_map (zip (field_name <$> fs) vs)).
Proof.
  induction 1 as [|f v fs vs [Hk Hv] _ IH]; [done |].
  cbn [validate_fields]. by rewrite (validate_field_present _ _ _ _ Hk Hv), IH.
Qed.

(* ===================================================================== *)
(** * The Observation mapper                                              *)
(* ===================================================================== *)

Lemma convert_date_dict obs w :
  convert_date (ObservationBase.dict obs) w = (Return (stored_fields obs), w).
Proof. reflexivity. Qed.

Lemma optional_encodable {A} (inj : A -> value) o :
  (forall a, encodable (inj a) = true) -> encodable (optional inj o) = true.
Proof. intros H. destruct o; [apply H | done]. Qed.

Lemma optional_fixed {A} (inj : A -> value) o :
  (forall a, bson_value (inj a) = inj a) -> bson_value (optional inj o) = optional inj o.
Proof. intros H. destruct o; [apply H | done]. Qed.

(** Case analysis on the key of a lookup in a dict written out as inserts. *)
Ltac by_key Hk leaf :=
  repeat (rewrite lookup_insert in Hk; case_decide;
          [ first [ congruence | injection Hk as <-; leaf ] | ]);
  by rewrite lookup_empty in Hk.

Lemma stored_fields_encodable obs :
  map_Forall (fun _ v => encodable v = true) (stored_fields obs).
Proof.
  intros k v Hk. unfold stored_fields, ObservationBase.dict in Hk.
  rewrite !list_to_map_cons, list_to_map_nil in Hk. cbn [fst snd] in Hk.
  by_key Hk ltac:(first [done | by apply optional_encodable]).
Qed.

Lemma stored_fields_fixed obs :
  map_Forall (fun _ v => bson_value v = v) (stored_fields obs).
Proof.
  intros k v Hk. unfold stored_fields, ObservationBase.dict in Hk.
  rewrite !list_to_map_cons, list_to_map_nil in Hk. cbn [fst snd] in Hk.
  by_key Hk ltac:(first [done | by apply optional_fixed]).
Qed.

(** The values of the fields of [MongoObservation], in the order the class
    declares them, for an observation the mapper wrote under [id]. *)
Lemma MongoObservation_stored obs id kwargs w :
  (forall k v, stored_fields obs !! k = Some v -> kwargs !! k = Some v) ->
  kwargs !! "observation_id" = Some (VInt id) ->
  MongoObservation kwargs w
  = (Return (<["observation_id" := VInt id]> (stored_fields obs)), w).
Proof.
  intros Hfields Hid. unfold MongoObservation, BaseModel.
  rewrite (validate_fields_present _ _ _
    [ VInt (ObservationBase.location_id obs);
      VDatetime (combine (ObservationBase.date obs) min_time);
      optional VFloat (ObservationBase.min_temp obs);
      optional VFloat (ObservationBase.max_temp obs);
      optional VFloat (ObservationBase.rainfall obs);
      optional VFloat (ObservationBase.humidity_9am obs);
      optional VFloat (ObservationBase.humidity_3pm obs);
      optional VFloat (ObservationBase.pressure_9am obs);
      optional VFloat (ObservationBase.pressure_3pm obs);
      optional VFloat (ObservationBase.wind_speed_9am obs);
      optional VFloat (ObservationBase.wind_speed_3pm obs);
      optional VStr (ObservationBase.wind_dir_9am obs);
      optional VStr (ObservationBase.wind_dir_3pm obs);
      optional VFloat (ObservationBase.cloud_9am obs);
      optional VFloat (ObservationBase.cloud_3pm obs);
      optional VFloat (ObservationBase.temp_9am obs);
      optional VFloat (ObservationBase.temp_3pm obs);
      optional VBool (ObservationBase.rain_today obs);
      optional VBool (ObservationBase.rain_tomorrow obs);
      VInt id ]).
  - reflexivity.
  - unfold MongoObservation_fields, MongoObservationBase_fields. cbn [app].
    repeat (constructor; [split |]); try constructor;
      first [ exact Hid
            | apply Hfields; reflexivity
            | match goal with
              | |- admissible _ (optional _ ?o) = true => by destruct o
              end
            | done ].
Qed.

(* ===================================================================== *)
(** * Updating an Observation                                             *)
(* ===================================================================== *)






(* ===================================================================== *)
(** * Reading an Observation back                                         *)
(* ===================================================================== *)

Lemma stored_fields_no_id obs : stored_fields obs !! "_id" = None.
Proof. reflexivity. Qed.

Lemma read_mongo_observation_stored id obs doc w :
  referenced WeatherObservations "observation_id" id w = Some doc ->
  holds doc obs id ->
  read_mongo_observation id w
  = (Return (Response [Lit "Found observation for location ";
                       Fmt (VInt (ObservationBase.location_id obs)); Lit " on ";
                       Fmt (VDatetime (combine (ObservationBase.date obs) min_time))]
                      (PDict (<["observation_id" := VInt id]> (stored_fields obs)))),
     w).
Proof.
  intros Hdoc [Hfields Hid].
  unfold read_mongo_observation, try_except_reraise_http.
  unfold bind at 1. rewrite find_one_int, Hdoc.
  rewrite (referenced_not_empty _ _ _ _ _ Hdoc).
  unfold bind at 1. cbn [the_doc ret].
  unfold bind at 1. rewrite (MongoObservation_stored obs id).
  - unfold bind, getitem.
    rewrite (Hfields "location_id" (VInt (ObservationBase.location_id obs)) eq_refl).
    cbn [ret].
    by rewrite (Hfields "date" (VDatetime (combine (ObservationBase.date obs) min_time))
                        eq_refl).
  - intros k v Hk. unfold without_id. rewrite lookup_delete_ne; [by apply Hfields |].
    intros <-. by rewrite stored_fields_no_id in Hk.
  - unfold without_id. by rewrite lookup_delete_ne.
Qed.

(* ===================================================================== *)
(** * Deleting a Location                                                 *)
(* ===================================================================== *)

Lemma delete_one_found c k n w d :
  referenced c k n w = Some d ->
  delete_one c k (VInt n) w
  = (Return 1, set_coll c (remove_first (matches k (VInt n)) (coll c w)) w).
Proof.
  intros Hd. unfold delete_one. cbn [encodable bson_value].
  by rewrite (existsb_find_some _ _ _ Hd).
Qed.

Lemma find_app_none (p : dict -> bool) l1 l2 :
  existsb p l1 = false -> existsb p l2 = false -> List.find p (l1 ++ l2) = None.
Proof.
  intros H1 H2. apply find_existsb_false. by rewrite existsb_app, H1, H2.
Qed.

(** C9. Deleting an existing document-store Location succeeds and takes
    exactly that one document out of the locations; observations,
    predictions and counters are as before.  An Observation that refers to
    the deleted Location is still stored, and reading it still returns
    the [location_id], which now refers to nothing when no other Location
    carried that id. *)
Theorem delete_location_keeps_dependents (id : Z) (w : world) (doc : dict) (name : value) :
  referenced Locations "location_id" id w = Some doc ->
  doc !! "name" = Some name ->
  exists (l1 l2 : list dict) (w' : world),
    locations w = (l1 ++ doc :: l2)%list
    /\ w' = set_coll Locations (l1 ++ l2)%list w
    /\ delete_mongo_location id w
       = (Return (Response [Lit "Location '"; Fmt name; Lit "' (ID: "; Fmt (VInt id);
                            Lit ") deleted successfully"] PNone), w')
    /\ weather_observations w' = weather_observations w
    /\ rain_predictions w' = rain_predictions w
    /\ counters w' = counters w
    /\ (forall oid, read_mongo_observation oid w' = (fst (read_mongo_observation oid w), w'))
    /\ (forall oid obs odoc,
          referenced WeatherObservations "observation_id" oid w = Some odoc ->
          holds odoc obs oid ->
          ObservationBase.location_id obs = id ->
          exists r d,
            read_mongo_observation oid w' = (Return r, w')
            /\ data r = PDict d
            /\ d !! "location_id" = Some (VInt id))
    /\ (existsb (matches "location_id" (VInt id)) l2 = false ->
        referenced Locations "location_id" id w' = None).
Proof.
  intros Hdoc Hname.
  pose proof Hdoc as Hfind. unfold referenced in Hfind. cbn [coll] in Hfind.
  destruct (remove_first_split _ _ _ Hfind) as (l1 & l2 & Hl & Hrem & Hl1).
  exists l1, l2, (set_coll Locations (l1 ++ l2)%list w).
  split; [exact Hl |]. split; [reflexivity |]. split; [| repeat split].
  - unfold delete_mongo_location, try_except_reraise_http.
    unfold bind at 1. rewrite find_one_int, Hdoc.
    rewrite (referenced_not_empty _ _ _ _ _ Hdoc).
    unfold bind at 1. cbn [the_doc ret].
    unfold bind at 1. unfold getitem. rewrite Hname. cbn [ret].
    unfold bind at 1. rewrite (delete_one_found _ _ _ _ _ Hdoc).
    change (1 =? 0) with false. cbn [coll ret]. by rewrite Hrem.
  - intros oid.
    rewrite (read_mongo_observation_ignores Locations oid ltac:(done)).
    f_equal. f_equal.
    unfold read_mongo_observation, try_except_reraise_http, bind.
    rewrite find_one_int.
    destruct (referenced WeatherObservations "observation_id" oid w) as [d|]; [| done].
    destruct (not_doc (Some d)); [done |]. cbn [the_doc ret].
    unfold MongoObservation, BaseModel.
    destruct (validate_fields _ _ _); [| done].
    unfold getitem. destruct (d !! "location_id"); [| done]. cbn [ret].
    by destruct (d !! "date").
  - intros oid obs odoc Hodoc Hholds <-.
    eexists _, _. split; [| split].
    + by apply (read_mongo_observation_stored oid obs odoc).
    + reflexivity.
    + rewrite lookup_insert_ne by done. reflexivity.
  - intros Hl2. unfold referenced. cbn [coll set_coll locations].
    by apply find_app_none.
Qed.

Lemma delete_location_keeps_dependents_witness :
  exists (l1 l2 : list dict) (w' : world),
    locations with_prediction = (l1 ++ default ∅ (head (locations with_prediction)) :: l2)%list
    /\ w' = set_coll Locations (l1 ++ l2)%list with_prediction
    /\ delete_mongo_location 1 with_prediction
       = (Return (Response [Lit "Location '"; Fmt (VStr "Sydney"); Lit "' (ID: ";
                            Fmt (VInt 1); Lit ") deleted successfully"] PNone), w')
    /\ weather_observations w' = weather_observations with_prediction
    /\ rain_predictions w' = rain_predictions with_prediction
    /\ counters w' = counters with_prediction
    /\ (forall oid,
          read_mongo_observation oid w'
          = (fst (read_mongo_observation oid with_prediction), w'))
    /\ (forall oid obs odoc,
          referenced WeatherObservations "observation_id" oid with_prediction = Some odoc ->
          holds odoc obs oid ->
          ObservationBase.location_id obs = 1 ->
          exists r d,
            read_mongo_observation oid w' = (Return r, w')
            /\ data r = PDict d
            /\ d !! "location_id" = Some (VInt 1))
    /\ (existsb (matches "location_id" (VInt 1)) l2 = false ->
        referenced Locations "location_id" 1 w' = None).
Proof.
  apply (delete_location_keeps_dependents 1 with_prediction).
  - vm_compute. exact eq_refl.
  - vm_compute. exact eq_refl.
Defined.

(* ===================================================================== *)
(** * Inserting a document                                                *)
(* ===================================================================== *)

Lemma insert_one_fresh c (data : dict) w :
  data !! "_id" = None ->
  map_Forall (fun _ v => encodable v = true) data ->
  next_oid_unused c w ->
  insert_one c data w
  = (Return (VObjectId (next_oid w), <["_id" := VObjectId (next_oid w)]> data),
     set_coll c (coll c w ++ [<["_id" := VObjectId (next_oid w)]> (bson_value <$> data)])
              (set_next_oid (next_oid w + 1) w)).
Proof.
  intros Hid Hdata Hunused. unfold insert_one. rewrite Hid.
  rewrite bson_encode_encodable
    by (apply (map_Forall_insert_2 (fun _ v => encodable v = true)); done).
  rewrite fmap_insert. cbn [bson_value].
  unfold dict_get. rewrite !lookup_insert_eq. cbn [default from_option id].
  replace (coll c (set_next_oid (next_oid w + 1) w)) with (coll c w) by (by destruct c).
  unfold next_oid_unused in Hunused. by rewrite Hunused.
Qed.

Lemma matches_oid_insert o (d : dict) :
  matches "_id" (VObjectId o) (<["_id" := VObjectId o]> d) = true.
Proof. unfold matches. rewrite lookup_insert_eq. cbn. apply N.eqb_refl. Qed.

Lemma without_id_insert o (d : dict) :
  d !! "_id" = None -> without_id (<["_id" := VObjectId o]> d) = d.
Proof. intros H. unfold without_id. by rewrite delete_insert_eq, delete_id. Qed.

Lemma coll_set_coll c l w : coll c (set_coll c l w) = l.
Proof. by destruct c. Qed.

(* ===================================================================== *)
(** * Creating an Observation and reading it back                         *)
(* ===================================================================== *)

Lemma identified_fields_encodable obs id :
  map_Forall (fun _ v => encodable v = true)
             (<["observation_id" := VInt id]> (stored_fields obs)).
Proof.
  apply (map_Forall_insert_2 (fun _ v => encodable v = true)); [done |].
  apply stored_fields_encodable.
Qed.

Lemma identified_fields_fixed obs id :
  bson_value <$> <["observation_id" := VInt id]> (stored_fields obs)
  = <["observation_id" := VInt id]> (stored_fields obs).
Proof.
  apply bson_value_fixed.
  apply (map_Forall_insert_2 (fun _ v => bson_value v = v)); [done |].
  apply stored_fields_fixed.
Qed.

Lemma identified_fields_hold obs id o :
  holds (<["_id" := VObjectId o]> (<["observation_id" := VInt id]> (stored_fields obs)))
        obs id.
Proof.
  split.
  - intros k v Hk.
    rewrite lookup_insert_ne by (intros <-; by rewrite stored_fields_no_id in Hk).
    rewrite lookup_insert_ne; [done |].
    intros <-. assert (stored_fields obs !! "observation_id" = None) as Hnone by reflexivity.
    congruence.
  - rewrite lookup_insert_ne by done. apply lookup_insert_eq.
Qed.

Lemma create_mongo_observation_ok obs w ldoc :
  referenced Locations "location_id" (ObservationBase.location_id obs) w = Some ldoc ->
  next_oid_unused WeatherObservations w ->
  create_mongo_observation obs w
  = (Return (Response [Lit "Weather observation created successfully with ID ";
                       Fmt (VInt (next_id "observations" w))]
                      (PDict (<["observation_id" := VInt (next_id "observations" w)]>
                                (stored_fields obs)))),
     set_coll WeatherObservations
       (weather_observations w
          ++ [<["_id" := VObjectId (next_oid w)]>
                (<["observation_id" := VInt (next_id "observations" w)]>
                   (stored_fields obs))])
       (set_next_oid (next_oid w + 1)
          (set_counters (<["observations" := next_id "observations" w]> (counters w)) w))).
Proof.
  intros Hloc Hunused.
  unfold create_mongo_observation, try_except_reraise_http.
  unfold bind at 1. rewrite (verify_location_exists_found _ _ _ Hloc).
  unfold bind at 1. rewrite get_next_sequence_value_eq.
  unfold bind at 1. rewrite convert_date_dict.
  unfold bind at 1. rewrite insert_one_fresh.
  - rewrite identified_fields_fixed.
    unfold bind at 1. rewrite find_one_oid, coll_set_coll.
    rewrite find_snoc_fresh; [| exact Hunused | apply matches_oid_insert].
    unfold bind at 1. cbn [the_doc ret].
    rewrite without_id_insert by reflexivity.
    unfold bind at 1. rewrite (MongoObservation_stored obs (next_id "observations" w)).
    + reflexivity.
    + intros k v Hk. rewrite lookup_insert_ne; [done |].
      intros <-. assert (stored_fields obs !! "observation_id" = None) as Hnone
        by reflexivity.
      congruence.
    + apply lookup_insert_eq.
  - reflexivity.
  - apply identified_fields_encodable.
  - exact Hunused.
Qed.

(** C8. An Observation created through the document-store mapper and
    read back by the id it was given comes back with the field values of
    the request: every field but [date] as submitted, [date] as the
    timestamp at midnight of the submitted date, [observation_id] the id
    itself, and no [_id].  The store is one whose observations do not
    already carry the id the allocator issues next nor the ObjectId the
    store hands out next. *)
Theorem observation_round_trip (obs : ObservationBase.t) (w : world) (ldoc : dict) :
  referenced Locations "location_id" (ObservationBase.location_id obs) w = Some ldoc ->
  next_oid_unused WeatherObservations w ->
  referenced WeatherObservations "observation_id" (next_id "observations" w) w = None ->
  exists (id : Z) (created : response) (w' : world) (read : response) (d : dict),
    create_mongo_observation obs w = (Return created, w')
    /\ message created
       = [Lit "Weather observation created successfully with ID "; Fmt (VInt id)]
    /\ read_mongo_observation id w' = (Return read, w')
    /\ data read = PDict d
    /\ data created = PDict d
    /\ d !! "_id" = None
    /\ d !! "observation_id" = Some (VInt id)
    /\ d !! "date" = Some (VDatetime (combine (ObservationBase.date obs) min_time))
    /\ (forall k, k <> "date" -> k <> "observation_id" ->
                  d !! k = ObservationBase.dict obs !! k).
Proof.
  intros Hloc Hunused Hnew.
  eexists (next_id "observations" w), _, _, _, _.
  split; [by apply (create_mongo_observation_ok obs w ldoc) |].
  split; [reflexivity |].
  split.
  { eapply read_mongo_observation_stored; [| apply identified_fields_hold].
    unfold referenced in *. rewrite coll_set_coll. cbn [coll] in Hnew.
    apply find_snoc_fresh; [by apply existsb_find_none |].
    unfold matches. rewrite lookup_insert_ne by done. rewrite lookup_insert_eq.
    cbn. apply Z.eqb_refl. }
  split; [reflexivity |]. split; [reflexivity |].
  split; [reflexivity |]. split; [apply lookup_insert_eq |].
  split; [reflexivity |].
  intros k Hdate Hid. unfold stored_fields. by rewrite !lookup_insert_ne.
Qed.

Lemma observation_round_trip_witness :
  exists (id : Z) (created : response) (w' : world) (read : response) (d : dict),
    create_mongo_observation new_year with_location = (Return created, w')
    /\ message created
       = [Lit "Weather observation created successfully with ID "; Fmt (VInt id)]
    /\ read_mongo_observation id w' = (Return read, w')
    /\ data read = PDict d
    /\ data created = PDict d
    /\ d !! "_id" = None
    /\ d !! "observation_id" = Some (VInt id)
    /\ d !! "date" = Some (VDatetime (combine (ObservationBase.date new_year) min_time))
    /\ (forall k, k <> "date" -> k <> "observation_id" ->
                  d !! k = ObservationBase.dict new_year !! k).
Proof.
  apply (observation_round_trip new_year with_location
           (default ∅ (head (locations with_location)))).
  - vm_compute. exact eq_refl.
  - vm_compute. exact eq_refl.
  - vm_compute. exact eq_refl.
Defined.

(* ===================================================================== *)
(** * Predictions                                                         *)
(* ===================================================================== *)







(** The same with both references in place: the assignment to the unbound
    local [data] ends the update in a 500. *)
Lemma update_mongo_prediction_changed_unbound id pred w existing stored observation lid ldoc :
  referenced RainPredictions "prediction_id" id w = Some existing ->
  existing !! "observation_id" = Some stored ->
  py_eq_int (PredictionBase.observation_id pred) stored = false ->
  referenced WeatherObservations "observation_id" (PredictionBase.observation_id pred) w
  = Some observation ->
  observation !! "location_id" = Some (VInt lid) ->
  referenced Locations "location_id" lid w = Some ldoc ->
  update_mongo_prediction id pred w
  = (Raise (HTTPException 500 [Lit "Failed to update prediction: ";
                               FmtExc (UnboundLocalError "data")]), w).
Proof.
  intros Hdoc Hobs Hchanged Hobservation Hlid Hloc.
  unfold update_mongo_prediction, try_except_reraise_http.
  unfold bind at 1. rewrite find_one_int, Hdoc.
  rewrite (referenced_not_empty _ _ _ _ _ Hdoc).
  unfold bind at 1. cbn [the_doc ret].
  unfold bind at 1. unfold getitem at 1. rewrite Hobs. cbn [ret].
  unfold bind at 1. rewrite Hchanged. cbn [negb when].
  unfold bind at 1. unfold bind at 1. rewrite find_one_int, Hobservation.
  rewrite (referenced_not_empty _ _ _ _ _ Hobservation).
  unfold bind at 1. cbn [the_doc ret].
  unfold bind at 1. unfold getitem. rewrite Hlid. cbn [ret].
  unfold bind at 1. by rewrite (verify_location_exists_found _ _ _ Hloc).
Qed.



(* ===================================================================== *)
(** * Connections of the relational endpoints                             *)
(* ===================================================================== *)

Lemma lookup_last (l : list connection) c : (l ++ [c]) !! length l = Some c.
Proof. by apply list_lookup_middle. Qed.

Lemma insert_last (l : list connection) c c' : <[length l := c']> (l ++ [c]) = l ++ [c'].
Proof.
  rewrite insert_app_r_alt by lia. by rewrite Nat.sub_diag.
Qed.

Lemma get_db_connection_eq tbl seqs l fails clock :
  get_db_connection (Postgres tbl seqs l fails clock)
  = if hd false fails
    then (Raise Psycopg2Error, Postgres tbl seqs l (tl fails) clock)
    else (Return (length l), Postgres tbl seqs (l ++ [Open None]) (tl fails) clock).
Proof. by destruct fails as [|[] fails]. Qed.

Lemma execute_last {A} (stmt : statement A) tbl seqs l t fails clock :
  execute (length l) stmt (Postgres tbl seqs (l ++ [Open t]) fails clock)
  = if hd false fails
    then (Raise Psycopg2Error, Postgres tbl seqs (l ++ [Open t]) (tl fails) clock)
    else (Return (stmt clock seqs (default tbl t)).1.1,
          Postgres tbl (stmt clock seqs (default tbl t)).1.2
                   (l ++ [Open (Some (stmt clock seqs (default tbl t)).2)])
                   (tl fails) clock).
Proof.
  unfold execute, bind, reach_server. cbn [failures connections].
  destruct fails as [|[] fails]; cbn [hd tl]; [| done |];
    cbn [connections committed sequences current_timestamp failures];
    rewrite lookup_last;
    destruct (stmt clock seqs (default tbl t)) as [[res seqs'] tbls];
    by rewrite insert_last.
Qed.

Lemma commit_last tbl seqs l t fails clock :
  commit (length l) (Postgres tbl seqs (l ++ [Open t]) fails clock)
  = if hd false fails
    then (Raise Psycopg2Error, Postgres tbl seqs (l ++ [Open t]) (tl fails) clock)
    else (Return tt, Postgres (default tbl t) seqs (l ++ [Open None]) (tl fails) clock).
Proof.
  unfold commit, bind, reach_server. cbn [failures connections].
  destruct fails as [|[] fails]; cbn [hd tl]; [| done |];
    cbn [connections committed sequences current_timestamp failures];
    by rewrite lookup_last, insert_last.
Qed.

Lemma close_last tbl seqs l c fails clock :
  close (length l) (Postgres tbl seqs (l ++ [c]) fails clock)
  = (Return tt, Postgres tbl seqs (l ++ [Closed]) fails clock).
Proof. unfold close, set_connections. cbn. by rewrite insert_last. Qed.

Lemma open_connections_closed tbl seqs l fails clock tbl' seqs' fails' clock' :
  open_connections (Postgres tbl' seqs' (l ++ [Closed]) fails' clock')
  = open_connections (Postgres tbl seqs l fails clock).
Proof.
  unfold open_connections. cbn [connections].
  rewrite Stdlib.Lists.List.filter_app, length_app. cbn. lia.
Qed.

Lemma open_connections_open tbl seqs l fails clock tbl' seqs' fails' clock' t :
  open_connections (Postgres tbl' seqs' (l ++ [Open t]) fails' clock')
  = S (open_connections (Postgres tbl seqs l fails clock)).
Proof.
  unfold open_connections. cbn [connections].
  rewrite Stdlib.Lists.List.filter_app, length_app. cbn. lia.
Qed.

Ltac pg_run :=
  repeat first
    [ rewrite get_db_connection_eq
    | rewrite execute_last
    | rewrite commit_last
    | rewrite close_last
    | match goal with
      | |- context [if hd false ?f then _ else _] => destruct (hd false f)
      | |- context [match fetchone ?r with _ => _ end] => destruct (fetchone r)
      | |- context [if ?b =? 0 then _ else _] => destruct (b =? 0)
      end
    | progress cbn [cursor cursor_close ret raise the_row bind exit_of fst snd
                    connections] ].

Lemma serve_left_as r tbl seqs l fails clock :
  left_as l (serve r (Postgres tbl seqs l fails clock)).
Proof.
  destruct r; unfold serve, left_as;
    unfold create_location, read_locations, read_location, update_location,
      delete_location, create_observation, read_observations, read_observation,
      update_observation, delete_observation, create_prediction, read_predictions,
      read_prediction, update_prediction, delete_prediction;
    unfold bind; pg_run; by eauto.
Qed.

(** C2. Every relational endpoint makes one connection.  On every exit on
    which no call to the server failed, the normal return and the
    endpoint's own 404, that connection has been closed when control goes
    back to the caller, and no connection that existed before is touched:
    as many connections are held open as before the call. *)
Theorem connection_released_unless_store_fails
    (r : request) (s : postgres) (exit : option exn) (s' : postgres) :
  serve r s = (exit, s') ->
  exit <> Some Psycopg2Error ->
  connections s' = connections s ++ [Closed]
  /\ open_connections s' = open_connections s.
Proof.
  intros Hserve Hexit. destruct s as [tbl seqs l fails clock].
  pose proof (serve_left_as r tbl seqs l fails clock) as Hleft.
  rewrite Hserve in Hleft. unfold left_as in Hleft. cbn [fst snd connections] in *.
  assert (connections s' = l ++ [Closed]) as Hclosed.
  { destruct exit as [[]|]; try done. }
  split; [exact Hclosed |].
  destruct s' as [tbl' seqs' l' fails' clock']. cbn [connections] in Hclosed. subst l'.
  apply open_connections_closed.
Qed.

Lemma connection_released_unless_store_fails_witness :
  connections (serve (DeleteLocation 5) (new_server [] clock_now)).2
  = connections (new_server [] clock_now) ++ [Closed]
  /\ open_connections (serve (DeleteLocation 5) (new_server [] clock_now)).2
     = open_connections (new_server [] clock_now).
Proof.
  apply (connection_released_unless_store_fails
           (DeleteLocation 5) (new_server [] clock_now)
           (Some (HTTPException 404 [Lit "Location not found"]))).
  - vm_compute. exact eq_refl.
  - discriminate.
Defined.

(** C2, as stated, fails: a server that accepts the connection and then
    fails the statement makes [create_location] leave by the exception
    with the connection it made still open. *)
Lemma connection_left_open_when_statement_fails :
  exists s',
    serve (CreateLocation (LocationBase.Make "Sydney" (Some "NSW"))) failing_server
    = (Some Psycopg2Error, s')
    /\ connections failing_server = []
    /\ connections s' = [Open None]
    /\ open_connections failing_server = 0%nat
    /\ open_connections s' = 1%nat.
Proof. eexists. vm_compute. repeat split. Qed.

(* ===================================================================== *)
(** * Updating a Prediction                                               *)
(* ===================================================================== *)

(** C5. In a store holding prediction 1 for observation 1, observations 1
    and 2 and their location 1, updating prediction 1 to observation 2
    finds both the new Observation and its Location, and then ends in a
    500: the branch assigns to [data] before [data] is bound.  Nothing is
    written. *)
Theorem update_prediction_changed_reference_fails :
  (exists existing,
     referenced RainPredictions "prediction_id" 1 two_observations = Some existing
     /\ existing !! "observation_id" = Some (VInt 1))
  /\ (exists observation,
        referenced WeatherObservations "observation_id" 2 two_observations
        = Some observation
        /\ observation !! "location_id" = Some (VInt 1))
  /\ (exists location,
        referenced Locations "location_id" 1 two_observations = Some location)
  /\ update_mongo_prediction 1 (PredictionBase.Make 2 false) two_observations
     = (Raise (HTTPException 500 [Lit "Failed to update prediction: ";
                                  FmtExc (UnboundLocalError "data")]),
        two_observations).
Proof.
  split; [| split; [| split]].
  - exists (default ∅ (referenced RainPredictions "prediction_id" 1 two_observations)).
    split; vm_compute; exact eq_refl.
  - exists (default ∅ (referenced WeatherObservations "observation_id" 2 two_observations)).
    split; vm_compute; exact eq_refl.
  - exists (default ∅ (referenced Locations "location_id" 1 two_observations)).
    vm_compute. exact eq_refl.
  - vm_compute. exact eq_refl.
Qed.

(* ===================================================================== *)
(** * The timestamp of a Prediction                                       *)
(* ===================================================================== *)






(* ===================================================================== *)
(** * Well-formed stores are kept by every request                        *)
(* ===================================================================== *)

Lemma bind_snd {A B} (m : M world A) (k : A -> M world B) w :
  (bind m k w).2 = match (m w).1 with
                   | Return a => (k a (m w).2).2
                   | Raise _ => (m w).2
                   end.
Proof. unfold bind. by destruct (m w) as [[a|e] w']. Qed.

Lemma keeps_bind_at {A B} (m : M world A) (k : A -> M world B) w :
  well_formed (m w).2 -> (forall a, keeps (k a)) -> well_formed (bind m k w).2.
Proof.
  intros Hm Hk. rewrite bind_snd. destruct (m w).1; [by apply Hk | done].
Qed.

Lemma keeps_bind {A B} (m : M world A) (k : A -> M world B) :
  keeps m -> (forall a, keeps (k a)) -> keeps (bind m k).
Proof. intros Hm Hk w Hw. apply keeps_bind_at; [by apply Hm | done]. Qed.

Lemma try_except_reraise_http_snd {A} (m : M world A) h w :
  (try_except_reraise_http m h w).2 = (m w).2.
Proof. unfold try_except_reraise_http. by destruct (m w) as [[a|[]] w']. Qed.

Lemma try_except_snd {A} (m : M world A) h w : (try_except m h w).2 = (m w).2.
Proof. unfold try_except. by destruct (m w) as [[a|e] w']. Qed.

Lemma keeps_try_except_reraise_http {A} (m : M world A) h :
  keeps m -> keeps (try_except_reraise_http m h).
Proof. intros Hm w Hw. rewrite try_except_reraise_http_snd. by apply Hm. Qed.

Lemma keeps_try_except {A} (m : M world A) h : keeps m -> keeps (try_except m h).
Proof. intros Hm w Hw. rewrite try_except_snd. by apply Hm. Qed.

(** A computation that leaves the store as it is. *)
Lemma keeps_unchanged {A} (m : M world A) : (forall w, (m w).2 = w) -> keeps m.
Proof. intros Hm w Hw. by rewrite Hm. Qed.

Lemma keeps_ret {A} (a : A) : keeps (ret a).
Proof. by apply keeps_unchanged. Qed.

Lemma keeps_raise {A} e : keeps (raise (A := A) e).
Proof. by apply keeps_unchanged. Qed.

Lemma keeps_when {A} b (m : M world A) : keeps m -> keeps (when b m).
Proof.
  intros Hm. destruct b; cbn [when]; [| apply keeps_ret].
  apply keeps_bind; [done | intros; apply keeps_ret].
Qed.

Lemma keeps_for_each {A B} (f : A -> M world B) l :
  (forall a, keeps (f a)) -> keeps (for_each f l).
Proof.
  intros Hf. induction l as [|a l IH]; cbn [for_each]; [apply keeps_ret |].
  apply keeps_bind; [apply Hf |]. intros b.
  apply keeps_bind; [apply IH |]. intros bs. apply keeps_ret.
Qed.

Lemma keeps_getitem d k : keeps (getitem d k).
Proof. unfold getitem. destruct (d !! k); [apply keeps_ret | apply keeps_raise]. Qed.

Lemma keeps_the_doc doc : keeps (the_doc doc).
Proof. destruct doc; [apply keeps_ret | apply keeps_raise]. Qed.

Lemma keeps_convert_date d : keeps (convert_date d).
Proof.
  unfold convert_date. apply keeps_bind; [apply keeps_getitem |].
  intros v. destruct (at_midnight v); apply keeps_ret.
Qed.

Lemma keeps_BaseModel model fs kwargs : keeps (BaseModel model fs kwargs).
Proof.
  apply keeps_unchanged. intros w. unfold BaseModel.
  by destruct (validate_fields _ _ _).
Qed.

Lemma keeps_MongoLocation_of d : keeps (MongoLocation_of d).
Proof.
  unfold MongoLocation_of.
  apply keeps_bind; [apply keeps_getitem |]. intros location_id.
  apply keeps_bind; [apply keeps_getitem |]. intros name.
  apply keeps_BaseModel.
Qed.

Lemma keeps_datetime_now : keeps datetime_now.
Proof. by apply keeps_unchanged. Qed.

Lemma keeps_find_one c k q : keeps (find_one c k q).
Proof.
  apply keeps_unchanged. intros w. unfold find_one. by destruct (encodable q).
Qed.

Lemma keeps_find c : keeps (find c).
Proof. by apply keeps_unchanged. Qed.

Lemma keeps_verify_location_exists v : keeps (verify_location_exists v).
Proof.
  unfold verify_location_exists. apply keeps_bind; [apply keeps_find_one |].
  intros location. destruct (not_doc location); [apply keeps_raise | apply keeps_ret].
Qed.

Lemma keeps_get_next_sequence_value T : keeps (get_next_sequence_value T).
Proof.
  intros w [Hoids Hids]. rewrite get_next_sequence_value_eq. cbn [snd]. split.
  - intros c d v Hd Hv.
    replace (coll c (set_counters _ w)) with (coll c w) in Hd by (by destruct c).
    apply (Hoids c d v Hd Hv).
  - intros d v Hd Hv. cbn [weather_observations set_counters] in Hd.
    destruct (Hids d v Hd Hv) as (n & -> & Hn). exists n. split; [done |].
    cbn [counters set_counters].
    destruct (decide (T = "observations")) as [-> | Hne].
    + rewrite lookup_insert_eq. unfold next_id.
      change (default 0 (Some ?x)) with x. lia.
    + by rewrite lookup_insert_ne.
Qed.

Lemma In_update_first (p : dict -> bool) f l x :
  In x (update_first p f l) -> In x l \/ exists d, In d l /\ x = f d.
Proof.
  induction l as [|d l IH]; cbn; [tauto |].
  destruct (p d); cbn.
  - intros [<- | Hx]; [right; exists d; tauto | tauto].
  - intros [<- | Hx]; [tauto |].
    destruct (IH Hx) as [? | (d0 & ? & ->)]; [tauto | right; exists d0; tauto].
Qed.

Lemma In_remove_first (p : dict -> bool) l x : In x (remove_first p l) -> In x l.
Proof.
  induction l as [|d l IH]; cbn; [tauto |].
  destruct (p d); cbn; [tauto |]. intros [<- | Hx]; [tauto | right; by apply IH].
Qed.

Lemma coll_set_coll_ne c c' l w : c' <> c -> coll c' (set_coll c l w) = coll c' w.
Proof. by destruct c, c'. Qed.

(** Replacing the documents of one collection by documents that pass the
    same checks keeps the store well-formed. *)
Lemma well_formed_set_coll c l w :
  well_formed w ->
  (forall d v, In d l -> d !! "_id" = Some v ->
               exists o, v = VObjectId o /\ (o < next_oid w)%N) ->
  (c = WeatherObservations ->
   forall d v, In d l -> d !! "observation_id" = Some v ->
               exists n, v = VInt n /\ n <= default 0 (counters w !! "observations")) ->
  well_formed (set_coll c l w).
Proof.
  intros [Hoids Hids] Hl Hobs. split.
  - intros c' d v Hd Hv.
    replace (next_oid (set_coll c l w)) with (next_oid w) by (by destruct c).
    destruct (decide (c' = c)) as [-> | Hne].
    + rewrite coll_set_coll in Hd. by apply (Hl d v).
    + rewrite coll_set_coll_ne in Hd by done. by apply (Hoids c' d v).
  - intros d v Hd Hv.
    replace (counters (set_coll c l w)) with (counters w) by (by destruct c).
    destruct (decide (c = WeatherObservations)) as [-> | Hne].
    + by apply (Hobs eq_refl d v).
    + replace (weather_observations (set_coll c l w)) with (weather_observations w) in Hd
        by (by destruct c).
      by apply (Hids d v).
Qed.

Lemma keeps_update_one c k q (data : dict) :
  data !! "_id" = None ->
  (c = WeatherObservations -> data !! "observation_id" = None) ->
  keeps (update_one c k q data).
Proof.
  intros Hid Hobs. unfold update_one.
  destruct (encodable q); [| apply keeps_raise].
  intros w Hw. rewrite bind_snd. unfold bson_encode.
  destruct (forallb _ _); [| done]. cbn [ret fst snd].
  destruct (existsb _ _); [| done]. cbn [snd].
  destruct Hw as [Hoids Hids].
  apply well_formed_set_coll; [by split | |].
  - intros d v [Hd | (d0 & Hd0 & ->)]%In_update_first Hv; [by apply (Hoids c d v) |].
    rewrite lookup_union_r in Hv by (by rewrite lookup_fmap, Hid).
    by apply (Hoids c d0 v).
  - intros -> d v [Hd | (d0 & Hd0 & ->)]%In_update_first Hv; [by apply (Hids d v) |].
    rewrite lookup_union_r in Hv by (by rewrite lookup_fmap, (Hobs eq_refl)).
    by apply (Hids d0 v).
Qed.

Lemma keeps_delete_one c k q : keeps (delete_one c k q).
Proof.
  unfold delete_one. destruct (encodable q); [| apply keeps_raise].
  intros w Hw. destruct (existsb _ _); [| done]. cbn [snd].
  destruct Hw as [Hoids Hids].
  apply well_formed_set_coll; [by split | |].
  - intros d v Hd%In_remove_first Hv. by apply (Hoids c d v).
  - intros -> d v Hd%In_remove_first Hv. by apply (Hids d v).
Qed.

Lemma well_formed_set_next_oid w :
  well_formed w -> well_formed (set_next_oid (next_oid w + 1) w).
Proof.
  intros [Hoids Hids]. split; [| exact Hids].
  intros c d v Hd Hv.
  replace (coll c (set_next_oid _ w)) with (coll c w) in Hd by (by destruct c).
  destruct (Hoids c d v Hd Hv) as (o & -> & Ho). exists o. split; [done |].
  cbn [next_oid set_next_oid]. lia.
Qed.

Lemma insert_one_keeps c (data : dict) w :
  well_formed w ->
  data !! "_id" = None ->
  (c = WeatherObservations ->
   forall v, data !! "observation_id" = Some v ->
             exists n, v = VInt n /\ n <= default 0 (counters w !! "observations")) ->
  well_formed (insert_one c data w).2.
Proof.
  intros Hw Hid Hobs. unfold insert_one. rewrite Hid.
  pose proof (well_formed_set_next_oid w Hw) as Hw1.
  unfold bson_encode. destruct (forallb _ _); [| done]. cbn [ret].
  destruct (existsb _ _); [done |]. cbn [snd].
  apply well_formed_set_coll; [done | |].
  - intros d v [Hd | [<- | []]]%in_app_iff Hv.
    + replace (coll c (set_next_oid _ w)) with (coll c w) in Hd by (by destruct c).
      destruct Hw1 as [Hoids1 _]. apply (Hoids1 c d v); [| done].
      by replace (coll c (set_next_oid (next_oid w + 1) w)) with (coll c w)
        by (by destruct c).
    + rewrite fmap_insert, lookup_insert_eq in Hv. injection Hv as <-.
      exists (next_oid w). split; [done |]. cbn [next_oid set_next_oid]. lia.
  - intros -> d v [Hd | [<- | []]]%in_app_iff Hv.
    + destruct Hw as [_ Hids]. by apply (Hids d v).
    + rewrite fmap_insert, lookup_insert_ne in Hv by done.
      rewrite lookup_fmap in Hv.
      destruct (data !! "observation_id") as [v0|] eqn:Hv0; [| done].
      injection Hv as <-. destruct (Hobs eq_refl v0 eq_refl) as (n & -> & Hn).
      by exists n.
Qed.

Lemma keeps_insert_one c (data : dict) :
  c <> WeatherObservations -> data !! "_id" = None -> keeps (insert_one c data).
Proof. intros Hc Hid w Hw. by apply insert_one_keeps. Qed.

Ltac keeps_step :=
  first
    [ apply keeps_try_except_reraise_http
    | apply keeps_try_except
    | apply keeps_ret
    | apply keeps_raise
    | apply keeps_when
    | apply keeps_for_each; intros ?
    | apply keeps_getitem
    | apply keeps_the_doc
    | apply keeps_convert_date
    | apply keeps_BaseModel
    | apply keeps_MongoLocation_of
    | apply keeps_datetime_now
    | apply keeps_find_one
    | apply keeps_find
    | apply keeps_verify_location_exists
    | apply keeps_get_next_sequence_value
    | apply keeps_delete_one
    | apply keeps_update_one; [reflexivity | first [reflexivity | discriminate]]
    | apply keeps_insert_one; [discriminate | reflexivity]
    | apply keeps_bind; [| intros ?]
    | match goal with
      | |- keeps (if ?b then _ else _) => destruct b
      | |- keeps (let (_, _) := ?x in _) => destruct x
      | |- keeps (match ?x with _ => _ end) => destruct x
      end ].

Lemma keeps_create_mongo_location loc : keeps (create_mongo_location loc).
Proof. unfold create_mongo_location. repeat keeps_step. Qed.

Lemma keeps_read_mongo_locations : keeps read_mongo_locations.
Proof. unfold read_mongo_locations. repeat keeps_step. Qed.

Lemma keeps_read_mongo_location id : keeps (read_mongo_location id).
Proof. unfold read_mongo_location. repeat keeps_step. Qed.

Lemma keeps_update_mongo_location id loc : keeps (update_mongo_location id loc).
Proof. unfold update_mongo_location. repeat keeps_step. Qed.

Lemma keeps_delete_mongo_location id : keeps (delete_mongo_location id).
Proof. unfold delete_mongo_location. repeat keeps_step. Qed.

Lemma keeps_read_mongo_observations : keeps read_mongo_observations.
Proof. unfold read_mongo_observations. repeat keeps_step. Qed.

Lemma keeps_read_mongo_observation id : keeps (read_mongo_observation id).
Proof. unfold read_mongo_observation. repeat keeps_step. Qed.

Lemma keeps_delete_mongo_observation id : keeps (delete_mongo_observation id).
Proof. unfold delete_mongo_observation. repeat keeps_step. Qed.

Lemma keeps_create_mongo_prediction pred : keeps (create_mongo_prediction pred).
Proof. unfold create_mongo_prediction. repeat keeps_step. Qed.

Lemma keeps_read_mongo_predictions : keeps read_mongo_predictions.
Proof. unfold read_mongo_predictions. repeat keeps_step. Qed.

Lemma keeps_read_mongo_prediction id : keeps (read_mongo_prediction id).
Proof. unfold read_mongo_prediction. repeat keeps_step. Qed.

Lemma keeps_update_mongo_prediction id pred : keeps (update_mongo_prediction id pred).
Proof. unfold update_mongo_prediction. repeat keeps_step. Qed.

Lemma keeps_delete_mongo_prediction id : keeps (delete_mongo_prediction id).
Proof. unfold delete_mongo_prediction. repeat keeps_step. Qed.

Lemma keeps_update_mongo_observation id obs : keeps (update_mongo_observation id obs).
Proof.
  unfold update_mongo_observation.
  apply keeps_try_except_reraise_http.
  apply keeps_bind; [apply keeps_when, keeps_verify_location_exists |]. intros _.
  intros w Hw. unfold bind at 1. rewrite convert_date_dict.
  revert w Hw. change (keeps ?m) with (keeps m). repeat keeps_step.
Qed.

Lemma keeps_create_mongo_observation obs : keeps (create_mongo_observation obs).
Proof.
  unfold create_mongo_observation.
  apply keeps_try_except_reraise_http.
  apply keeps_bind; [apply keeps_verify_location_exists |]. intros _.
  intros w Hw. unfold bind at 1. rewrite get_next_sequence_value_eq.
  unfold bind at 1. rewrite convert_date_dict.
  apply keeps_bind_at.
  - apply insert_one_keeps.
    + exact (keeps_get_next_sequence_value "observations" w Hw).
    + reflexivity.
    + intros _ v Hv. rewrite lookup_insert_eq in Hv. injection Hv as <-.
      eexists. split; [reflexivity |].
      cbn [counters set_counters]. rewrite lookup_insert_eq. reflexivity.
  - intros [result data]. repeat keeps_step.
Qed.

(** Every request of the API keeps the store well-formed. *)
Lemma after_well_formed r w : well_formed w -> well_formed (after r w).
Proof.
  destruct r; cbn [after].
  - apply keeps_create_mongo_location.
  - apply keeps_read_mongo_locations.
  - apply keeps_read_mongo_location.
  - apply keeps_update_mongo_location.
  - apply keeps_delete_mongo_location.
  - apply keeps_create_mongo_observation.
  - apply keeps_read_mongo_observations.
  - apply keeps_read_mongo_observation.
  - apply keeps_update_mongo_observation.
  - apply keeps_delete_mongo_observation.
  - apply keeps_create_mongo_prediction.
  - apply keeps_read_mongo_predictions.
  - apply keeps_read_mongo_prediction.
  - apply keeps_update_mongo_prediction.
  - apply keeps_delete_mongo_prediction.
Qed.

Lemma reachable_well_formed w : reachable w -> well_formed w.
Proof.
  induction 1 as [t utc | r w _ IH | t utc w _ IH].
  - split; [intros c d v Hd; by destruct c | intros d v Hd; by destruct Hd].
  - by apply after_well_formed.
  - destruct IH as [Hoids Hids]. split.
    + intros c d v Hd Hv.
      replace (coll c (set_clock t utc w)) with (coll c w) in Hd by (by destruct c).
      apply (Hoids c d v Hd Hv).
    + exact Hids.
Qed.

Lemma well_formed_next_oid_unused c w : well_formed w -> next_oid_unused c w.
Proof.
  intros [Hoids _]. unfold next_oid_unused. apply existsb_find_none.
  destruct (List.find _ _) as [d|] eqn:Hd; [| done].
  apply find_some in Hd as [Hin Hm]. unfold matches in Hm.
  destruct (d !! "_id") as [v|] eqn:Hv; [| done].
  destruct (Hoids c d v Hin Hv) as (o & -> & Ho). cbn in Hm.
  apply N.eqb_eq in Hm. lia.
Qed.

Lemma well_formed_next_id_unused w :
  well_formed w ->
  referenced WeatherObservations "observation_id" (next_id "observations" w) w = None.
Proof.
  intros [_ Hids]. unfold referenced.
  destruct (List.find _ _) as [d|] eqn:Hd; [| done].
  apply find_some in Hd as [Hin Hm]. unfold matches in Hm. cbn [coll] in Hin.
  destruct (d !! "observation_id") as [v|] eqn:Hv; [| done].
  destruct (Hids d v Hin Hv) as (n & -> & Hn). cbn in Hm.
  apply Z.eqb_eq in Hm. unfold next_id in Hm. lia.
Qed.

(** The round trip of an Observation, in every store the API can bring
    about: the Location has to exist, and nothing else is asked. *)
Corollary observation_round_trip_reachable obs w ldoc :
  reachable w ->
  referenced Locations "location_id" (ObservationBase.location_id obs) w = Some ldoc ->
  exists (id : Z) (w' : world) (read : response),
    (create_mongo_observation obs w).2 = w'
    /\ read_mongo_observation id w' = (Return read, w')
    /\ data read = PDict (<["observation_id" := VInt id]> (stored_fields obs)).
Proof.
  intros Hw%reachable_well_formed Hloc.
  pose proof (well_formed_next_oid_unused WeatherObservations w Hw) as Hunused.
  pose proof (well_formed_next_id_unused w Hw) as Hnew.
  exists (next_id "observations" w). eexists _, _.
  rewrite (create_mongo_observation_ok obs w ldoc Hloc Hunused). cbn [snd].
  split; [reflexivity |]. split.
  - eapply read_mongo_observation_stored; [| apply identified_fields_hold].
    unfold referenced in *. rewrite coll_set_coll. cbn [coll] in Hnew.
    apply find_snoc_fresh; [by apply existsb_find_none |].
    unfold matches. rewrite lookup_insert_ne by done. rewrite lookup_insert_eq.
    cbn. apply Z.eqb_refl.
  - reflexivity.
Qed.
